(* ===== verification/_CoqProject ===== *)
-Q . S2P
Prelude.v
PyStr.v
PyInt.v
Env.v
Logging.v
Registry.v
Resource.v
Server.v
Transport.v
Entry.v
