(* ===== verification/Prelude.v ===== *)
(** * bybit-mcp: a verification of the server shell [src/bybit_mcp/main.py]

    ** The program
    [main.py] is the whole of the repository's source.  At import it loads
    the [.env] file into the environment ([load_dotenv()], line 51),
    configures logging (53-54), parses [MCP_PORT] with [int()] (56), builds
    a FastMCP server bound to host [0.0.0.0] and that port (57), registers
    the 36 endpoint functions it imports from [.market], [.trade] and
    [.position] as tools (8-49, 60-99), and registers the static resource
    [bybit://market/info] (101-112).  [cli_main()] (125-130) then runs
    [main()] (114-122), which lowercases [MCP_TRANSPORT] (default
    [stdio]), logs the startup line, and serves on the standard streams
    ([stdio]), serves SSE on the socket ([sse]), or raises [ValueError].
    The components interact through the module's globals: the environment
    written by [load_dotenv] is read by the [int()] of line 56 and by
    [main()]; the [server] object is mutated by every [add_tool] and by the
    resource decorator and read by [main()]; the logger configured at line
    53 writes [main()]'s line.

    ** The library, one file per component, in dependency order
    - [Prelude] (this file): the exceptions [py_exc], the effect monad
      [PyM S A = S -> (py_exc + A) * S] (Python statements that thread the
      process state and may raise; stdpp's [x ← m; k] notation), string
      helpers ([is_prefix], [contains]), hint databases and shared lemmas.
    - [PyStr]: Python [str] for code points below 256 (one [ascii] per code
      point): [str.lower], the whitespace and digit classes of [int()],
      [repr]; character facts are decided over the table of all 256 codes
      ([forall_ascii]); [lower_case_variant] characterises [lower v = w].
    - [PyInt]: [int(s)] of line 56, written as CPython's loop
      ([lstrip], [take_sign], [scan_run] with its underscore rules,
      [parse_body] with the 4300-digit limit); [int_literal] is the
      accepted language as a grammar; [str_of_Z] prints an integer.
    - [Env]: the environment as [gmap string string]; [os.getenv] with a
      default; [load_dotenv()] as python-dotenv's [override=False] loop.
    - [Logging]: the root logger's level and handlers, [basicConfig],
      [getLogger], [%]-formatting and the lines a record writes to stderr.
    - [Registry]: the imported endpoints ([endpoint], with [tool_name] and
      [endpoint_domain]); the registry's contract as a class
      [ToolRegistry] with laws [ToolRegistryLaws]; the spec's registry
      [SpecRegistry] (a [gmap] that rejects duplicates) as its instance; the
      registration script [registration_script] and [register_all].
    - [Resource]: the text of [market_info()] and the resource descriptor.
    - [Server]: the FastMCP server object (settings, registry, resources),
      [add_tool]/[add_tools]/[add_resource], [run_stdio_async] and
      [run_sse_async], and the process state [proc] (environment, [.env]
      entries, logging state, output events).
    - [Transport]: [main()] and the spec's abstract selector [select_mode].
    - [Entry]: the module's statements [module_init], [cli_main], a whole
      start [process], and the spec's state machine [step] over [phase].
    Each component is a [Module] of its file; the script and the start are
    proved in [Section]s over any lawful registry ([Context
    `{ToolRegistryLaws R}]), and instantiated at [SpecRegistry].

    ** What is proved
    - A start, for every environment and [.env] file ([Entry.process_spec]):
      port error at import, or startup line then serve / [ValueError].  The
      spec's scenarios follow: [MCP_TRANSPORT] unset gives stdio and the
      log line [INFO:bybit-mcp:Starting Bybit MCP Server in stdio mode];
      [sse] with [MCP_PORT=9001] binds [0.0.0.0:9001]; [foo] raises a
      [ValueError] containing [foo] and serves nothing.
    - [main()] refines the selector ([Transport.main_refines_select]);
      selection is exactly ASCII-case-insensitive
      ([select_mode_case_insensitive]); an unsupported value raises after
      writing only log lines ([main_unsupported]).
    - The state machine: [Running m] is reachable exactly when the port
      parses and the value selects [m] ([reach_running], by rule
      induction over [rtc step] with the invariant [reach_inv]); an
      unsupported value never reaches a running state
      ([unsupported_never_runs]); a start is deterministic and termination
      final.  Exactly the terminated phases are stuck
      ([stuck_iff_terminated]: a start always either raises or begins to
      serve).
    - The registration script raises nothing, registers every imported
      endpoint under its name and nothing else, and its order does not
      matter ([registration_script_ok], [registration_order_irrelevant],
      up to [reg_equiv], the equivalence of registries that dispatch
      alike); after import the server serves the resource
      ([init_serves_market_info]), it is its only resource
      ([init_single_resource]).  The spec's registry
      accepts registrations exactly when names are unique
      ([spec_registry_unique_names]); its exact outcome is the error
      naming the first repeated name, or the map from names to tools
      ([spec_register_all_result], against the reference [first_dup]).
    - [int()]: the parser accepts exactly [int_literal]
      ([py_int_spec], soundness and completeness of the scanner) and
      [int(str(z)) = z] below the digit limit ([py_int_str_of_Z]); above
      it a well-formed literal raises the limit's [ValueError]
      ([py_int_digit_limit]; [parse_body] follows CPython 3.12 in checking
      the trailing characters before the digit count, and the theorem holds
      in either order); the port is never range-checked
      ([startup_sse_any_port]); an [MCP_PORT] set to an empty or blank
      string aborts the import instead of falling back to 8000
      ([startup_blank_port]); [repr] of printable ASCII without quote or
      backslash is the string in single quotes ([repr_plain]).
    - An unsupported transport logs its startup line before raising
      ([startup_unsupported_logs_first]).
    - Logging: the startup record after [basicConfig(level=INFO)], for
      every prior configuration of the root logger
      ([info_after_basicConfig]): written once in the basic format on an
      unconfigured root, and, when an earlier import had configured it,
      only if the root's level lets INFO through, by each earlier handler
      whose level does, in that handler's own format.  [%]-formatting equals the reference [fill] of
      the holes of a template ([percent_format_fill]).
    - [load_dotenv()] is a left-biased union: the process environment wins
      over the last [.env] line, which wins over the default
      ([getenv_load_dotenv]).
    - The resource lists exactly the 14 market tools of the 36 registered
      ([market_info_lists_exactly_market]).

    ** Bounds and fuel
    No function of the model needs fuel except [digits_rev], the printer
    of [str(n)], whose fuel [1 + log2 n] is proved enough
    ([digits_rev_fuel]: [n < 2 ^ fuel]).  [int()]'s limit is the default
    [sys.get_int_max_str_digits()] of 4300 digits.  Integers are [Z]: a
    Python [int] has no width, and the port is not range-checked.

    ** Not modelled
    The endpoint functions themselves (in [market.py], [trade.py],
    [position.py], not in the sources) are opaque constructors of
    [endpoint]; their [__name__] is taken to be the imported name.  The MCP
    framework's dispatch, JSON-RPC wire format and serving loop are
    external: a run is the event it starts with, and the loop's end
    (return or exception) is a free step of [step].  [FastMCP(...)] is
    modelled as an infallible constructor: versions of the [mcp] library
    whose settings also read [FASTMCP_*] variables, and raise on invalid
    ones, are not modelled.  python-dotenv's file
    search, parsing and [${VAR}] interpolation, Unicode beyond code point
    255, the 200-character truncation of [int()]'s error message, and
    [asyncio]'s scheduling are not modelled. *)

From Stdlib Require Export Ascii.
From stdpp Require Export base strings gmap list.
From stdpp Require Import options.

(** ** Python exceptions and the effect monad of the development *)

Declare Scope py_scope.
Delimit Scope py_scope with py.
Open Scope stdpp_scope.

(** The exceptions the modelled lines can raise.  [ValueError] is raised
    by [int()] on a malformed [MCP_PORT] and by [main()] on an unsupported
    [MCP_TRANSPORT]; [RuntimeFailure] stands for any exception coming out
    of the external server runtime (bind errors, transport errors). *)
Inductive py_exc :=
  | ValueError (msg : string)
  | RuntimeFailure (msg : string).

#[export] Instance py_exc_eq_dec : EqDecision py_exc.
Proof. solve_decision. Defined.

(** Python code threads mutable process state and may raise at any
    statement: a computation takes the state and returns either the
    exception it raised ([inl]) or its value ([inr]), together with the
    state at that point (effects before a raise are kept). *)
Definition PyM (S A : Type) : Type := S -> (py_exc + A) * S.

#[export] Instance pym_ret {S} : MRet (PyM S) := fun A a s => (inr a, s).
#[export] Instance pym_bind {S} : MBind (PyM S) := fun A B f m s =>
  match m s with
  | (inl e, s') => (inl e, s')
  | (inr a, s') => f a s'
  end.

Definition throw {S A} (e : py_exc) : PyM S A := fun s => (inl e, s).
Definition gets {S A} (f : S -> A) : PyM S A := fun s => (inr (f s), s).
Definition modify {S} (f : S -> S) : PyM S unit := fun s => (inr (), f s).

(** A pure Python call that may raise, run as a statement. *)
Definition lift_exc {S A} (r : py_exc + A) : PyM S A := fun s => (r, s).

(** [m s] ran to completion with value [a] and final state [s']. *)
Definition returns {S A} (m : PyM S A) (s : S) (a : A) (s' : S) : Prop :=
  m s = (inr a, s').
(** [m s] raised [e], leaving the state [s']. *)
Definition raises {S A} (m : PyM S A) (s : S) (e : py_exc) (s' : S) : Prop :=
  m s = (inl e, s').

Notation "'do' m 'at' s" := (m s) (at level 10, m at level 9, only parsing) : py_scope.

(** ** Strings: prefix and substring tests shared by the components *)

Fixpoint is_prefix (p s : string) : bool :=
  match p, s with
  | EmptyString, _ => true
  | String c p', String d s' => bool_decide (c = d) && is_prefix p' s'
  | String _ _, EmptyString => false
  end.

(** [contains s t]: [t] occurs in [s] (Python's [t in s]). *)
Fixpoint contains (s t : string) : bool :=
  is_prefix t s ||
  match s with
  | EmptyString => false
  | String _ s' => contains s' t
  end.

(** ** Automation *)

Create HintDb pym discriminated.
Create HintDb pystr discriminated.
Create Rewrite HintDb pym_rw.
Create Rewrite HintDb pystr_rw.

Ltac pym_unfold :=
  unfold mbind, mret, pym_bind, pym_ret, throw, gets, modify, lift_exc, returns, raises in *.

Ltac pym_run := pym_unfold; simpl in *; simplify_eq.

(** ** Generic lemmas *)

Section Monad.
Context {S : Type}.

Lemma bind_ret_l {A B} (a : A) (f : A -> PyM S B) s :
  (mret a ≫= f) s = f a s.
Proof. reflexivity. Qed.

Lemma bind_throw {A B} e (f : A -> PyM S B) s :
  (throw e ≫= f) s = (inl e, s).
Proof. reflexivity. Qed.

Lemma bind_returns {A B} (m : PyM S A) (f : A -> PyM S B) s a s' :
  returns m s a s' -> (m ≫= f) s = f a s'.
Proof. unfold returns. intros H. pym_unfold. by rewrite H. Qed.

Lemma bind_raises {A B} (m : PyM S A) (f : A -> PyM S B) s e s' :
  raises m s e s' -> (m ≫= f) s = (inl e, s').
Proof. unfold raises. intros H. pym_unfold. by rewrite H. Qed.

Lemma bind_assoc {A B C} (m : PyM S A) (f : A -> PyM S B) (g : B -> PyM S C) s :
  ((m ≫= f) ≫= g) s = (m ≫= (fun a => f a ≫= g)) s.
Proof. pym_unfold. destruct (m s) as [[e|a] s']; reflexivity. Qed.
End Monad.

#[export] Hint Rewrite @bind_ret_l @bind_throw : pym_rw.

(** stdpp declares [String.append] [simpl never]; its two equations are
    used by rewriting instead. *)
Lemma string_app_nil_l (b : string) : EmptyString +:+ b = b.
Proof. reflexivity. Qed.

Lemma string_app_cons c (a b : string) : String c a +:+ b = String c (a +:+ b).
Proof. reflexivity. Qed.

#[export] Hint Rewrite string_app_nil_l string_app_cons : pystr_rw.

Lemma is_prefix_app p q : is_prefix p (p +:+ q) = true.
Proof.
  induction p as [|c p IH]; [done|].
  rewrite string_app_cons; simpl. by rewrite bool_decide_eq_true_2.
Qed.

Lemma is_prefix_contains p s : is_prefix p s = true -> contains s p = true.
Proof. destruct s; simpl; intros ->; done. Qed.

Lemma contains_app_l s t u : contains s t = true -> contains (u +:+ s) t = true.
Proof.
  induction u as [|c u IH]; [done|].
  intros H. rewrite string_app_cons; simpl. rewrite IH by done. apply orb_true_r.
Qed.

(** The substring test finds a string between any prefix and suffix. *)
Lemma contains_middle u t v : contains (u +:+ t +:+ v) t = true.
Proof. apply contains_app_l, is_prefix_contains, is_prefix_app. Qed.

#[export] Hint Resolve is_prefix_app contains_middle : pystr.

Lemma string_app_assoc (a b c : string) : (a +:+ b) +:+ c = a +:+ (b +:+ c).
Proof. induction a as [|x a IH]; [done|]. rewrite !string_app_cons. by rewrite IH. Qed.

Lemma string_app_nil_r (a : string) : a +:+ EmptyString = a.
Proof. induction a as [|x a IH]; [done|]. rewrite string_app_cons. by rewrite IH. Qed.

#[export] Hint Rewrite string_app_assoc string_app_nil_r : pystr_rw.

(** Two decidable propositions with the same decision are equivalent:
    a fact checked by evaluating [bool_decide] on every case. *)
Lemma bool_decide_eq_iff (P Q : Prop) `{Decision P, Decision Q} :
  bool_decide P = bool_decide Q -> (P <-> Q).
Proof.
  intros Heq. split; intros HP.
  - apply (bool_decide_eq_true_1 Q). rewrite <- Heq. by apply bool_decide_eq_true_2.
  - apply (bool_decide_eq_true_1 P). rewrite Heq. by apply bool_decide_eq_true_2.
Qed.
