(* ===== verification/PyStr.v ===== *)
(** * Python [str] primitives used by [main.py]

    A Python [str] is modelled as a Rocq [string] with one [ascii] (an
    8-bit code) per code point: the model covers the strings whose code
    points are all below 256 (ASCII and Latin-1), on which every operation
    below is exact.  It holds [str.lower] (used on [MCP_TRANSPORT] in
    [main()]), the character classes [int()] uses (whitespace and decimal
    digits), and [repr] (used in the message of [int()]'s [ValueError]),
    with the lemma that [repr] of a string needing no escape is that string
    in single quotes. *)

From S2P Require Import Prelude.
From stdpp Require Import options.

Module PyStr.

Local Open Scope N_scope.

Definition code (c : ascii) : N := Ascii.N_of_ascii c.

(** ** [str.lower]

    On code points below 256 Python lowercases A-Z and the Latin-1
    capitals U+00C0..U+00DE except U+00D7 (multiplication sign), each to
    the code point 32 above; every other character is its own lowercase. *)
Definition lower_char (c : ascii) : ascii :=
  let n := code c in
  if ((65 <=? n) && (n <=? 90)) || ((192 <=? n) && (n <=? 222) && negb (n =? 215))
  then Ascii.ascii_of_N (n + 32)%N
  else c.

Fixpoint lower (s : string) : string :=
  match s with
  | EmptyString => EmptyString
  | String c s' => String (lower_char c) (lower s')
  end.

(** ** Character classes of [int()]

    [int()] on a [str] first maps every non-ASCII whitespace character to
    a space and then skips C whitespace ([\t \n \v \f \r] and space)
    around the literal: below 256 this is codes 9-13, 32, U+0085 and
    U+00A0.  The ASCII separators 28-31, which [str.isspace] accepts, are
    not skipped by [int()]. *)
Definition int_space (c : ascii) : bool :=
  let n := code c in
  ((9 <=? n) && (n <=? 13)) || (n =? 32) || (n =? 133) || (n =? 160).

(** Decimal digits: Latin-1 has no decimal digit besides 0-9. *)
Definition digit_value (c : ascii) : option N :=
  let n := code c in
  if (48 <=? n) && (n <=? 57) then Some (n - 48)%N else None.

(** ** [repr] of a [str] *)

Definition hex_digit (n : N) : ascii :=
  Ascii.ascii_of_N (if (n <? 10)%N then 48 + n else 87 + n)%N.

Definition backslash : ascii := "092".
Definition squote : ascii := "039".
Definition dquote : ascii := "034".

(** Characters [str.isprintable] rejects below 256: controls, DEL, the
    C1 controls, no-break space and soft hyphen. *)
Definition printable (c : ascii) : bool :=
  let n := code c in
  negb ((n <? 32) || ((127 <=? n) && (n <=? 160)) || (n =? 173)).

Definition repr_char (q c : ascii) : string :=
  let n := code c in
  if bool_decide (c = q) || bool_decide (c = backslash) then String backslash (String c EmptyString)
  else if (n =? 9)%N then String backslash (String "t" EmptyString)
  else if (n =? 10)%N then String backslash (String "n" EmptyString)
  else if (n =? 13)%N then String backslash (String "r" EmptyString)
  else if printable c then String c EmptyString
  else String backslash (String "x" (String (hex_digit (n / 16)) (String (hex_digit (n mod 16)) EmptyString))).

Fixpoint has_char (c : ascii) (s : string) : bool :=
  match s with
  | EmptyString => false
  | String d s' => bool_decide (c = d) || has_char c s'
  end.

Fixpoint repr_body (q : ascii) (s : string) : string :=
  match s with
  | EmptyString => EmptyString
  | String c s' => repr_char q c +:+ repr_body q s'
  end.

(** The quote is [''] unless the string holds a single quote and no
    double quote. *)
Definition repr (s : string) : string :=
  let q := if has_char squote s && negb (has_char dquote s) then dquote else squote in
  String q (repr_body q s +:+ String q EmptyString).

(** ** Deciding facts about every character

    A character class is a finite table: a property of all 256 codes is
    checked by evaluating it on each of them. *)

Definition all_chars : list ascii := Ascii.ascii_of_N <$> (N.of_nat <$> seq 0 256).

Lemma all_chars_complete c : c ∈ all_chars.
Proof. apply (bool_decide_unpack (c ∈ all_chars)). destruct c as [[] [] [] [] [] [] [] []]; vm_compute; reflexivity. Qed.

Lemma forall_ascii (P : ascii -> bool) : forallb P all_chars = true -> forall c, P c = true.
Proof.
  intros H c. apply forallb_forall with (x := c) in H; [done|].
  apply list_elem_of_In, all_chars_complete.
Qed.

Ltac by_char_table := apply forall_ascii; vm_compute; reflexivity.

Lemma digit_not_space_b :
  forall c, match digit_value c with Some _ => negb (int_space c) | None => true end = true.
Proof. by_char_table. Qed.

Lemma digit_not_space c d : digit_value c = Some d -> int_space c = false.
Proof. intros H. pose proof (digit_not_space_b c) as Hc. rewrite H in Hc. by destruct (int_space c). Qed.

Lemma space_not_digit c : int_space c = true -> digit_value c = None.
Proof.
  intros H. destruct (digit_value c) as [d|] eqn:Hd; [|done].
  by rewrite (digit_not_space c d Hd) in H.
Qed.

Lemma lower_char_s_b : forall c, negb (bool_decide (lower_char c = "s"%char))
  || bool_decide (c = "s"%char) || bool_decide (c = "S"%char) = true.
Proof. by_char_table. Qed.

(** Only [s] and [S] lowercase to [s]. *)
Lemma lower_char_s c : lower_char c = "s"%char <-> c = "s"%char \/ c = "S"%char.
Proof.
  split; [|by intros [-> | ->]]. intros Hl.
  pose proof (lower_char_s_b c) as Hc. rewrite Hl in Hc. simpl in Hc.
  apply orb_prop in Hc as [Hc|Hc]; [left|right]; by apply bool_decide_eq_true in Hc.
Qed.

#[export] Hint Resolve digit_not_space space_not_digit : pystr.

(** ** Case-insensitive equality with a lowercase ASCII word *)

Definition lower_letter (d : ascii) : bool := (97 <=? code d) && (code d <=? 122).

Definition upper_char (d : ascii) : ascii :=
  if lower_letter d then Ascii.ascii_of_N (code d - 32) else d.

Lemma forall_ascii2 (P : ascii -> ascii -> bool) :
  forallb (fun c => forallb (P c) all_chars) all_chars = true -> forall c d, P c d = true.
Proof.
  intros H c d. apply (forall_ascii (fun c => forallb (P c) all_chars)) with (c := c) in H.
  by apply (forall_ascii (P c)).
Qed.

Lemma lower_char_letter_b : forall c d,
  implb (lower_letter d)
    (eqb (bool_decide (lower_char c = d)) (bool_decide (c = d \/ c = upper_char d))) = true.
Proof. apply forall_ascii2. vm_compute. reflexivity. Qed.

(** Below 256, exactly [d] and its ASCII capital lowercase to a lowercase
    ASCII letter [d]. *)
Lemma lower_char_letter c d :
  lower_letter d = true -> lower_char c = d <-> c = d \/ c = upper_char d.
Proof.
  intros Hd. pose proof (lower_char_letter_b c d) as H. rewrite Hd in H. simpl in H.
  apply (bool_decide_eq_iff (lower_char c = d) (c = d \/ c = upper_char d)). by apply Bool.eqb_prop.
Qed.

(** [v] spells [w] with some letters in upper case. *)
Fixpoint case_variant (v w : string) : Prop :=
  match v, w with
  | EmptyString, EmptyString => True
  | String c v', String d w' => (c = d \/ c = upper_char d) /\ case_variant v' w'
  | _, _ => False
  end.

Fixpoint all_lower_letters (w : string) : bool :=
  match w with
  | EmptyString => true
  | String d w' => lower_letter d && all_lower_letters w'
  end.

Lemma lower_case_variant v w :
  all_lower_letters w = true -> lower v = w <-> case_variant v w.
Proof.
  revert w. induction v as [|c v IH]; intros [|d w] Hw; simpl; try done.
  apply andb_true_iff in Hw as [Hd Hw].
  rewrite <- lower_char_letter, <- IH by done. split; [intros [= -> ->]|intros [-> ->]]; done.
Qed.

(** ** [repr] of a string that needs no escape *)

(** Printable ASCII, codes 32 to 126, other than the single quote (39)
    and the backslash (92): stated on the codes, independently of the
    [printable] table [repr] uses. *)
Fixpoint ascii_plain (s : string) : bool :=
  match s with
  | EmptyString => true
  | String c s' =>
      (32 <=? code c) && (code c <=? 126) && negb (code c =? 39) && negb (code c =? 92) && ascii_plain s'
  end.

Lemma ascii_plain_char_b : forall c,
  implb ((32 <=? code c) && (code c <=? 126) && negb (code c =? 39) && negb (code c =? 92))
    (bool_decide (repr_char squote c = String c EmptyString) && negb (bool_decide (squote = c))) = true.
Proof. by_char_table. Qed.

Lemma ascii_plain_body s :
  ascii_plain s = true -> has_char squote s = false /\ repr_body squote s = s.
Proof.
  induction s as [|c s IH]; [done|]. cbn [ascii_plain has_char repr_body].
  pose proof (ascii_plain_char_b c) as Hc.
  destruct ((32 <=? code c) && (code c <=? 126) && negb (code c =? 39) && negb (code c =? 92)); [|done].
  apply andb_prop in Hc as [Hr%bool_decide_eq_true Hq%negb_true_iff]. simpl.
  intros Hs. destruct (IH Hs) as [Hh ->]. rewrite Hr, Hh, Hq. done.
Qed.

(** C26: [repr] of a string of printable ASCII characters
    without a single quote or backslash is the string between single
    quotes, as in the [ValueError] of [int('abc')]; a double quote in it
    is kept as it is. *)
Theorem repr_plain s : ascii_plain s = true -> repr s = String squote (s +:+ String squote EmptyString).
Proof. intros Hs. destruct (ascii_plain_body s Hs) as [Hh Hb]. unfold repr. rewrite Hh. cbn [andb]. by rewrite Hb. Qed.

Lemma repr_plain_witness :
  ascii_plain ("8" +:+ String dquote "8") = true /\
  repr ("8" +:+ String dquote "8") = String squote (("8" +:+ String dquote "8") +:+ String squote EmptyString).
Proof.
  assert (ascii_plain ("8" +:+ String dquote "8") = true) as Hs by (vm_compute; reflexivity).
  split; [exact Hs|]. exact (repr_plain _ Hs).
Defined.

End PyStr.
