(* ===== verification/PyInt.v ===== *)
(** * Python's [int(s)] on a [str], base 10

    [main.py] line 56 reads [port = int(os.getenv("MCP_PORT", "8000"))].
    This file models that [int()] call: CPython's [PyLong_FromString] in
    base 10 (skip whitespace, optional sign, a run of digits and single
    underscores between digits, trailing whitespace, and the default limit
    of 4300 digits), with [ValueError] on every other input.  It states
    the accepted language as a grammar ([int_literal]), proves the parser
    sound and complete for it, proves that [int(str(n))] gives back [n]
    for every integer below the digit limit, and that a literal of more
    digits raises the limit's [ValueError] (the digits are counted before
    what follows them is checked). *)

From S2P Require Import Prelude PyStr.
From stdpp Require Import options.

Module PyInt.
Import PyStr.

(** ** The parser *)

Fixpoint lstrip (s : string) : string :=
  match s with
  | String c s' => if int_space c then lstrip s' else s
  | EmptyString => EmptyString
  end.

Fixpoint all_space (s : string) : bool :=
  match s with
  | String c s' => int_space c && all_space s'
  | EmptyString => true
  end.

Definition underscore : ascii := "_".

(** A leading ['+'] or ['-']; [true] means negative. *)
Definition take_sign (s : string) : bool * string :=
  match s with
  | String c s' =>
      if bool_decide (c = "-"%char) then (true, s')
      else if bool_decide (c = "+"%char) then (false, s')
      else (false, s)
  | EmptyString => (false, s)
  end.

(** CPython's loop over the literal: consume digits and underscores,
    accumulating the value and counting the digits; an underscore after an
    underscore, or a run that ends in one, is a syntax error.  [prev_us]
    records that the previous character was an underscore. *)
Definition acc_digit (acc d : N) : N := (10 * acc + d)%N.

Fixpoint scan_run (prev_us : bool) (acc : N) (digits : nat) (s : string)
    : option (N * nat * string) :=
  match s with
  | String c s' =>
      match digit_value c with
      | Some d => scan_run false (acc_digit acc d) (S digits) s'
      | None =>
          if bool_decide (c = underscore) then
            if prev_us then None else scan_run true acc digits s'
          else if prev_us then None else Some (acc, digits, s)
      end
  | EmptyString => if prev_us then None else Some (acc, digits, EmptyString)
  end.

(** [sys.get_int_max_str_digits()] at its default. *)
Definition max_str_digits : nat := 4300.

Inductive int_error :=
  | Invalid
  | TooManyDigits (digits : nat).

#[export] Instance int_error_eq_dec : EqDecision int_error.
Proof. solve_decision. Defined.

Definition signed (neg : bool) (v : N) : Z := if neg then (- Z.of_N v)%Z else Z.of_N v.

(** After the sign: no leading underscore, at least one digit, only
    whitespace after the digits, and then at most [max_str_digits] digits.
    The order of the last two checks is CPython 3.12's
    [long_from_string_base]: the trailing characters are validated before
    the digit count is compared with the limit. *)
Definition parse_body (neg : bool) (body : string) : int_error + Z :=
  match body with
  | String c _ => if bool_decide (c = underscore) then inl Invalid else
      match scan_run false 0 0 body with
      | None => inl Invalid
      | Some (v, digits, rest) =>
          if Nat.eqb digits 0 then inl Invalid
          else if negb (all_space rest) then inl Invalid
          else if Nat.ltb max_str_digits digits then inl (TooManyDigits digits)
          else inr (signed neg v)
      end
  | EmptyString => inl Invalid
  end.

Definition parse (s : string) : int_error + Z :=
  let '(neg, body) := take_sign (lstrip s) in parse_body neg body.

(** ** [str(n)] for an integer (decimal, with a leading ['-']) *)

Fixpoint digits_rev (fuel : nat) (n : N) : list N :=
  match fuel with
  | O => []
  | S f => if (n <? 10)%N then [n] else (n mod 10)%N :: digits_rev f (n / 10)%N
  end.

Definition dec_digits (n : N) : list N :=
  rev (digits_rev (S (N.to_nat (N.log2 n))) n).

Definition digit_char (d : N) : ascii := Ascii.ascii_of_N (48 + d)%N.

Fixpoint str_of_digits (ds : list N) : string :=
  match ds with
  | [] => EmptyString
  | d :: ds' => String (digit_char d) (str_of_digits ds')
  end.

Definition str_of_N (n : N) : string := str_of_digits (dec_digits n).

Definition str_of_Z (z : Z) : string :=
  if (z <? 0)%Z then String "-" (str_of_N (Z.to_N (- z))) else str_of_N (Z.to_N z).

(** ** [int(s)] with its exceptions *)

Definition digits_limit_msg (n : nat) : string :=
  "Exceeds the limit (4300 digits) for integer string conversion: value has "
  +:+ str_of_Z (Z.of_nat n) +:+ " digits; use sys.set_int_max_str_digits() to increase the limit".

Definition py_int (s : string) : py_exc + Z :=
  match parse s with
  | inr z => inr z
  | inl Invalid =>
      inl (ValueError ("invalid literal for int() with base 10: " +:+ repr s))
  | inl (TooManyDigits n) => inl (ValueError (digits_limit_msg n))
  end.

(** ** The language [int()] accepts, as a grammar *)

Definition value (ds : list N) : N := fold_left acc_digit ds 0%N.

(** One or more digits, with single underscores between digits. *)
Inductive digit_groups : string -> list N -> Prop :=
  | dg_one c d :
      digit_value c = Some d -> digit_groups (String c EmptyString) [d]
  | dg_digit c d s ds :
      digit_value c = Some d -> digit_groups s ds -> digit_groups (String c s) (d :: ds)
  | dg_us c d s ds :
      digit_value c = Some d -> digit_groups s ds ->
      digit_groups (String c (String underscore s)) (d :: ds).

Inductive sign_part : string -> bool -> Prop :=
  | sign_none : sign_part EmptyString false
  | sign_plus : sign_part (String "+" EmptyString) false
  | sign_minus : sign_part (String "-" EmptyString) true.

Inductive int_literal : string -> Z -> Prop :=
  | int_lit w1 sg neg body ds w2 :
      all_space w1 = true -> sign_part sg neg -> digit_groups body ds ->
      length ds <= max_str_digits -> all_space w2 = true ->
      int_literal (w1 +:+ sg +:+ body +:+ w2) (signed neg (value ds)).

(** ** Equations and helper lemmas *)

Lemma scan_run_cons b acc k c s :
  scan_run b acc k (String c s) =
  match digit_value c with
  | Some d => scan_run false (acc_digit acc d) (S k) s
  | None =>
      if bool_decide (c = underscore) then
        if b then None else scan_run true acc k s
      else if b then None else Some (acc, k, String c s)
  end.
Proof. reflexivity. Qed.

(** [rest] cannot continue a run of digits. *)
Definition stops (rest : string) : bool :=
  match rest with
  | EmptyString => true
  | String c _ => bool_decide (digit_value c = None) && negb (bool_decide (c = underscore))
  end.

Lemma digit_value_underscore : digit_value underscore = None.
Proof. reflexivity. Qed.

Lemma digit_not_underscore c d : digit_value c = Some d -> c <> underscore.
Proof. intros H ->. by rewrite digit_value_underscore in H. Qed.

Lemma scan_stop acc k rest : stops rest = true -> scan_run false acc k rest = Some (acc, k, rest).
Proof.
  destruct rest as [|c r]; [done|]. unfold stops.
  intros [Hd Hu%negb_true_iff]%andb_true_iff.
  apply bool_decide_eq_true in Hd. apply bool_decide_eq_false in Hu.
  rewrite scan_run_cons, Hd, bool_decide_eq_false_2 by done. done.
Qed.

Lemma all_space_stops w : all_space w = true -> stops w = true.
Proof.
  destruct w as [|c w]; [done|]. unfold stops, all_space. intros [Hc _]%andb_true_iff.
  apply andb_true_iff. split; [by apply bool_decide_eq_true_2, space_not_digit|].
  apply negb_true_iff, bool_decide_eq_false_2. intros ->. done.
Qed.

(** The scanner reads a whole digit-group literal, up to where it stops. *)
Lemma scan_groups body ds rest b acc k :
  digit_groups body ds -> stops rest = true ->
  scan_run b acc k (body +:+ rest) = Some (fold_left acc_digit ds acc, k + length ds, rest).
Proof.
  intros Hg. revert b acc k. induction Hg as [c d Hd|c d s ds Hd Hg IH|c d s ds Hd Hg IH];
    intros b acc k Hr; rewrite ?string_app_cons, scan_run_cons, Hd.
  - rewrite string_app_nil_l, scan_stop by done. simpl. repeat f_equal; lia.
  - rewrite IH by done. simpl. repeat f_equal; lia.
  - rewrite scan_run_cons, digit_value_underscore, bool_decide_eq_true_2 by done.
    rewrite IH by done. simpl. repeat f_equal; lia.
Qed.

(** What the scanner read: nothing (only from the start), a digit-group
    literal, or an underscore followed by one (only from the start, which
    [parse_body] rules out). *)
Definition scanned (b : bool) (pre : string) (ds : list N) : Prop :=
  (b = false /\ pre = EmptyString /\ ds = []) \/ digit_groups pre ds \/
  (b = false /\ exists g, pre = String underscore g /\ digit_groups g ds).

Lemma scan_sound s b acc k v n rest :
  scan_run b acc k s = Some (v, n, rest) ->
  stops rest = true /\ exists pre ds,
    s = pre +:+ rest /\ v = fold_left acc_digit ds acc /\ n = k + length ds /\ scanned b pre ds.
Proof.
  revert b acc k. induction s as [|c s IH]; intros b acc k H.
  { simpl in H. destruct b; simplify_eq. split; [done|]. exists EmptyString, [].
    split_and!; [done|done|simpl; lia|by left]. }
  rewrite scan_run_cons in H. destruct (digit_value c) as [d|] eqn:Hd.
  - apply IH in H as [Hr (pre & ds & -> & -> & -> & Hsc)]. split; [done|].
    exists (String c pre), (d :: ds). split_and!; [done|done|simpl; lia|].
    right; left. destruct Hsc as [(_ & -> & ->)|[Hg|(_ & g & -> & Hg)]]; by constructor.
  - case_bool_decide as Hu; destruct b; try done.
    + apply IH in H as [Hr (pre & ds & -> & -> & -> & Hsc)]. split; [done|].
      exists (String c pre), ds. subst c. split_and!; [done|done|done|].
      right; right. split; [done|]. exists pre. split; [done|].
      by destruct Hsc as [(? & _)|[Hg|(? & _)]].
    + simplify_eq. split.
      * unfold stops. rewrite Hd, (bool_decide_eq_false_2 (c = underscore)) by done. done.
      * exists EmptyString, []. split_and!; [done|done|simpl; lia|by left].
Qed.

Lemma lstrip_app_spaces w t : all_space w = true -> lstrip (w +:+ t) = lstrip t.
Proof.
  induction w as [|c w IH]; [done|]. cbn [all_space]. intros [Hc Hw]%andb_true_iff.
  rewrite string_app_cons. cbn [lstrip]. rewrite Hc. by apply IH.
Qed.

Lemma lstrip_nonspace c t : int_space c = false -> lstrip (String c t) = String c t.
Proof. intros Hc. cbn [lstrip]. by rewrite Hc. Qed.

Lemma lstrip_split s : exists w, all_space w = true /\ s = w +:+ lstrip s.
Proof.
  induction s as [|c s [w [Hw Hs]]]; [by exists EmptyString|].
  cbn [lstrip]. destruct (int_space c) eqn:Hc.
  - exists (String c w). cbn [all_space]. rewrite Hc, Hw, string_app_cons. split; [done|congruence].
  - by exists EmptyString.
Qed.

Lemma take_sign_split t neg body :
  take_sign t = (neg, body) -> exists sg, sign_part sg neg /\ t = sg +:+ body.
Proof.
  destruct t as [|c t]; unfold take_sign; intros H.
  - simplify_eq. exists EmptyString. split; [constructor|done].
  - case_bool_decide; [|case_bool_decide]; simplify_eq.
    + exists (String "-" EmptyString). split; [constructor|done].
    + exists (String "+" EmptyString). split; [constructor|done].
    + exists EmptyString. split; [constructor|done].
Qed.

Lemma digit_groups_head body ds :
  digit_groups body ds -> exists c r d, body = String c r /\ digit_value c = Some d.
Proof. intros []; eauto. Qed.

Lemma digit_groups_length body ds : digit_groups body ds -> length ds <> 0.
Proof. by intros []. Qed.

(** Leading whitespace does not change the result. *)
Lemma parse_spaces w t : all_space w = true -> parse (w +:+ t) = parse t.
Proof. intros Hw. unfold parse. by rewrite lstrip_app_spaces. Qed.

Lemma parse_sign sg neg c d r :
  sign_part sg neg -> digit_value c = Some d ->
  parse (sg +:+ String c r) = parse_body neg (String c r).
Proof.
  intros Hsg Hd. unfold parse.
  assert (c <> "-"%char /\ c <> "+"%char) as [Hm Hp]
    by (split; intros ->; by vm_compute in Hd).
  destruct Hsg; rewrite ?string_app_cons, ?string_app_nil_l, lstrip_nonspace
    by (eauto with pystr || reflexivity); unfold take_sign.
  - by rewrite !bool_decide_eq_false_2.
  - done.
  - done.
Qed.

(** What follows the digits is checked first, then their number. *)
Lemma parse_body_scan neg body ds rest :
  digit_groups body ds -> stops rest = true ->
  parse_body neg (body +:+ rest) =
    if negb (all_space rest) then inl Invalid
    else if Nat.ltb max_str_digits (length ds) then inl (TooManyDigits (length ds))
    else inr (signed neg (value ds)).
Proof.
  intros Hg Hr. pose proof (digit_groups_length _ _ Hg) as Hne.
  destruct (digit_groups_head _ _ Hg) as (c & r & d & -> & Hd).
  rewrite string_app_cons. unfold parse_body.
  rewrite bool_decide_eq_false_2 by (by eapply digit_not_underscore).
  rewrite <- string_app_cons, (scan_groups _ ds) by done.
  by destruct (Nat.eqb_spec (0 + length ds) 0); [lia|].
Qed.

Lemma parse_body_groups neg body ds w2 :
  digit_groups body ds -> length ds <= max_str_digits -> all_space w2 = true ->
  parse_body neg (body +:+ w2) = inr (signed neg (value ds)).
Proof.
  intros Hg Hlen Hw2. rewrite (parse_body_scan _ _ ds), Hw2 by auto using all_space_stops.
  by destruct (Nat.ltb_spec max_str_digits (length ds)); [lia|].
Qed.

(** ** The parser accepts exactly the grammar *)

Lemma parse_complete s z : int_literal s z -> parse s = inr z.
Proof.
  intros [w1 sg neg body ds w2 Hw1 Hsg Hg Hlen Hw2].
  destruct (digit_groups_head _ _ Hg) as (c & r & d & -> & Hd).
  rewrite parse_spaces, string_app_cons, (parse_sign sg neg c d), <- string_app_cons by eauto.
  by apply parse_body_groups.
Qed.

Lemma parse_sound s z : parse s = inr z -> int_literal s z.
Proof.
  intros H. destruct (lstrip_split s) as [w1 [Hw1 Hs]]. unfold parse in H.
  destruct (take_sign (lstrip s)) as [neg body] eqn:Ht.
  apply take_sign_split in Ht as [sg [Hsg Ht]].
  unfold parse_body in H. destruct body as [|c r]; [done|].
  case_bool_decide as Hu; [done|].
  destruct (scan_run false 0 0 (String c r)) as [[[v n] rest]|] eqn:Hsc; [|done].
  destruct (Nat.eqb_spec n 0); [done|]. destruct (all_space rest) eqn:Hr; simpl in H; [|done].
  destruct (Nat.ltb_spec max_str_digits n); [done|]. simplify_eq.
  apply scan_sound in Hsc as [_ (pre & ds & Hpre & -> & -> & Hscd)].
  destruct Hscd as [(_ & -> & ->) | [Hg | (_ & g & -> & _)]].
  - simpl in *. lia.
  - rewrite Hs, Ht, Hpre. apply int_lit; [done|done|done|lia|done].
  - rewrite string_app_cons in Hpre. by injection Hpre as -> _.
Qed.

(** ** [str] of an integer is an [int] literal *)

Lemma int_literal_intro w1 sg neg body ds w2 s z :
  all_space w1 = true -> sign_part sg neg -> digit_groups body ds ->
  length ds <= max_str_digits -> all_space w2 = true ->
  s = w1 +:+ sg +:+ body +:+ w2 -> z = signed neg (value ds) -> int_literal s z.
Proof. intros; subst; by constructor. Qed.

Lemma digits_rev_value f n :
  (n < 2 ^ N.of_nat f)%N -> foldr (fun d a => acc_digit a d) 0%N (digits_rev f n) = n.
Proof.
  revert n. induction f as [|f IH]; intros n Hn; simpl.
  - simpl in Hn. lia.
  - rewrite Nat2N.inj_succ, N.pow_succ_r' in Hn.
    destruct (N.ltb_spec n 10); simpl; unfold acc_digit; [lia|].
    rewrite IH by (apply N.Div0.div_lt_upper_bound; lia).
    pose proof (N.div_mod n 10). lia.
Qed.

Lemma value_rev l : fold_left acc_digit (rev l) 0%N = foldr (fun d a => acc_digit a d) 0%N l.
Proof. rewrite <- (rev_involutive l) at 2. by rewrite fold_left_rev_right. Qed.

Lemma digits_rev_fuel n : (n < 2 ^ N.of_nat (S (N.to_nat (N.log2 n))))%N.
Proof.
  rewrite Nat2N.inj_succ, N2Nat.id.
  destruct (N.eq_dec n 0%N) as [->|Hn]; [done|]. apply N.log2_spec. lia.
Qed.

Lemma digits_rev_lt f n : Forall (fun d => (d < 10)%N) (digits_rev f n).
Proof.
  revert n. induction f as [|f IH]; intros n; simpl; [done|].
  destruct (N.ltb_spec n 10); constructor; auto. by apply N.mod_lt.
Qed.

Lemma digits_rev_length f n k :
  (n < 10 ^ N.of_nat k)%N -> 1 <= k -> length (digits_rev f n) <= k.
Proof.
  revert n k. induction f as [|f IH]; intros n k Hn Hk; simpl; [lia|].
  destruct (N.ltb_spec n 10); simpl; [lia|].
  destruct k as [|[|k]]; [lia| |].
  - simpl in Hn. lia.
  - rewrite Nat2N.inj_succ, N.pow_succ_r' in Hn.
    enough (length (digits_rev f (n / 10)) <= S k) by lia.
    apply IH; [apply N.Div0.div_lt_upper_bound|]; lia.
Qed.

Lemma digit_char_value d : (d < 10)%N -> digit_value (digit_char d) = Some d.
Proof.
  intros Hd. unfold digit_value, digit_char, code.
  rewrite Ascii.N_ascii_embedding by lia.
  destruct (N.leb_spec 48 (48 + d)), (N.leb_spec (48 + d) 57); simpl; try lia.
  f_equal. lia.
Qed.

Lemma str_of_digits_groups ds :
  ds <> [] -> Forall (fun d => (d < 10)%N) ds -> digit_groups (str_of_digits ds) ds.
Proof.
  induction ds as [|d [|d' ds] IH]; intros Hne Hlt; [done| |];
    inversion Hlt; subst; simpl.
  - apply dg_one. by apply digit_char_value.
  - apply dg_digit; [by apply digit_char_value|]. by apply IH.
Qed.

Lemma dec_digits_literal n k :
  (n < 10 ^ N.of_nat k)%N -> 1 <= k ->
  digit_groups (str_of_N n) (dec_digits n) /\ length (dec_digits n) <= k /\ value (dec_digits n) = n.
Proof.
  intros Hn Hk. unfold str_of_N, dec_digits, value. split_and!.
  - apply str_of_digits_groups; [simpl; destruct (_ <? _)%N; by destruct (rev _) eqn:E;
      [apply (f_equal (@rev N)) in E; rewrite rev_involutive in E|]|].
    apply Forall_rev, digits_rev_lt.
  - rewrite length_rev. by apply digits_rev_length.
  - rewrite value_rev. apply digits_rev_value, digits_rev_fuel.
Qed.

(** ** Properties of [int()] *)

(** C11: [int(s)] returns [z] exactly when [s] is, around optional
    whitespace, an optional sign followed by digits with single underscores
    between them, of at most 4300 digits, denoting [z]; on every other
    string it raises. *)
Theorem py_int_spec s z : py_int s = inr z <-> int_literal s z.
Proof.
  unfold py_int. split.
  - destruct (parse s) as [[|n]|z'] eqn:E; intros H; simplify_eq. by apply parse_sound.
  - intros H. by rewrite (parse_complete s z H).
Qed.

Lemma digits_bound_N (m : N) k :
  (Z.of_N m < 10 ^ Z.of_nat k)%Z -> (m < 10 ^ N.of_nat k)%N.
Proof. intros H. apply N2Z.inj_lt. rewrite N2Z.inj_pow, nat_N_Z. done. Qed.

Lemma parse_str_of_Z z :
  (Z.abs z < 10 ^ Z.of_nat max_str_digits)%Z -> parse (str_of_Z z) = inr z.
Proof.
  intros Hz. apply parse_complete. unfold str_of_Z.
  destruct (Z.ltb_spec z 0) as [Hneg|Hpos].
  - destruct (dec_digits_literal (Z.to_N (- z)) max_str_digits) as (Hg & Hl & Hv);
      [apply digits_bound_N; lia|unfold max_str_digits; lia|].
    apply (int_literal_intro EmptyString (String "-" EmptyString) true _ _ EmptyString
      _ _ eq_refl sign_minus Hg Hl eq_refl).
    + rewrite string_app_nil_r. reflexivity.
    + unfold signed. rewrite Hv. lia.
  - destruct (dec_digits_literal (Z.to_N z) max_str_digits) as (Hg & Hl & Hv);
      [apply digits_bound_N; lia|unfold max_str_digits; lia|].
    apply (int_literal_intro EmptyString EmptyString false _ _ EmptyString
      _ _ eq_refl sign_none Hg Hl eq_refl).
    + rewrite string_app_nil_r. reflexivity.
    + unfold signed. rewrite Hv. lia.
Qed.

(** An empty or all-whitespace string is no literal. *)
Lemma py_int_blank s :
  all_space s = true ->
  py_int s = inl (ValueError ("invalid literal for int() with base 10: " +:+ repr s)).
Proof.
  intros Hs. unfold py_int, parse.
  assert (lstrip s = EmptyString) as ->; [|reflexivity].
  rewrite <- (string_app_nil_r s). by apply (lstrip_app_spaces s EmptyString).
Qed.

Lemma py_int_of_parse s z : parse s = inr z -> py_int s = inr z.
Proof. unfold py_int. by intros ->. Qed.

(** C12: [int(str(z)) = z] for every integer of at most 4300
    digits. *)
Theorem py_int_str_of_Z z :
  (Z.abs z < 10 ^ Z.of_nat max_str_digits)%Z -> py_int (str_of_Z z) = inr z.
Proof. intros Hz. by apply py_int_of_parse, parse_str_of_Z. Qed.

Lemma py_int_str_of_Z_witness :
  (Z.abs 65536 < 10 ^ Z.of_nat max_str_digits)%Z /\ py_int (str_of_Z 65536) = inr 65536%Z.
Proof.
  split; [vm_compute; reflexivity|].
  apply py_int_str_of_Z. vm_compute. reflexivity.
Defined.

(** C19: a well-formed literal of more than 4300 digits
    (optional whitespace and sign, digits with single underscores,
    trailing whitespace) makes [int()] raise the [ValueError] of the digit
    limit, naming the number of digits, not the invalid-literal one.  The
    statement holds in either order of CPython's last two checks. *)
Theorem py_int_digit_limit w1 sg neg body ds w2 :
  all_space w1 = true -> sign_part sg neg -> digit_groups body ds ->
  max_str_digits < length ds -> all_space w2 = true ->
  py_int (w1 +:+ sg +:+ body +:+ w2) = inl (ValueError (digits_limit_msg (length ds))).
Proof.
  intros Hw1 Hsg Hg Hlen Hw2. unfold py_int.
  destruct (digit_groups_head _ _ Hg) as (c & r & d & -> & Hd).
  rewrite parse_spaces, string_app_cons, (parse_sign sg neg c d), <- string_app_cons by done.
  rewrite (parse_body_scan _ _ ds), Hw2 by auto using all_space_stops.
  by destruct (Nat.ltb_spec max_str_digits (length ds)); [|lia].
Qed.

Lemma py_int_digit_limit_witness :
  all_space EmptyString = true /\ sign_part (String "-" EmptyString) true /\
  digit_groups (str_of_digits (replicate 4301 1%N)) (replicate 4301 1%N) /\
  max_str_digits < length (replicate 4301 1%N) /\ all_space (String " " EmptyString) = true /\
  py_int (EmptyString +:+ String "-" EmptyString +:+ str_of_digits (replicate 4301 1%N) +:+ String " " EmptyString)
    = inl (ValueError (digits_limit_msg (length (replicate 4301 1%N)))).
Proof.
  assert (digit_groups (str_of_digits (replicate 4301 1%N)) (replicate 4301 1%N)) as Hg.
  { apply str_of_digits_groups; [done|]. apply Forall_replicate. lia. }
  assert (max_str_digits < length (replicate 4301 1%N)) as Hl by (rewrite length_replicate; vm_compute; lia).
  split_and!; [reflexivity|exact sign_minus|exact Hg|exact Hl|reflexivity|].
  exact (py_int_digit_limit EmptyString _ _ _ _ (String " " EmptyString) eq_refl sign_minus Hg Hl eq_refl).
Defined.

End PyInt.
