(* ===== verification/Env.v ===== *)
(** * The process environment: [os.getenv] and [load_dotenv()]

    [main.py] calls [load_dotenv()] at import (line 51) and then reads
    [MCP_PORT] (line 56) and [MCP_TRANSPORT] (line 115) with
    [os.getenv(key, default)].  The environment is a finite map from
    names to values.  [load_dotenv()] with its defaults ([override=False])
    builds the dictionary of the [.env] file (a later line for the same key
    replaces an earlier one; a key written without [=] has the value
    [None]) and then sets each key that has a value and is not already in
    [os.environ].  The [.env] file enters the model already parsed, as its
    list of entries: locating and parsing the file, and [${VAR}]
    interpolation, are python-dotenv's and are not modelled. *)

From S2P Require Import Prelude.
From stdpp Require Import fin_maps options.

Module Env.

Abbreviation environ := (gmap string string).

(** [os.getenv(key, default)] is [os.environ.get(key, default)]. *)
Definition getenv (e : environ) (key default : string) : string :=
  match e !! key with
  | Some v => v
  | None => default
  end.

(** One parsed line of a [.env] file: [KEY=value], or [KEY] alone. *)
Abbreviation dotenv_entry := (string * option string)%type.

(** [DotEnv.dict()]: an ordered dictionary, later entries win. *)
Definition dotenv_dict (entries : list dotenv_entry) : gmap string (option string) :=
  foldl (fun m kv => <[kv.1 := kv.2]> m) ∅ entries.

(** [DotEnv.set_as_environment_variables()] with [override=False]:
    [for k, v in self.dict().items(): if k in os.environ: continue;
     if v is not None: os.environ[k] = v]. *)
Definition set_as_environment_variables (d : gmap string (option string)) (e : environ) : environ :=
  map_fold (fun k ov acc =>
    if bool_decide (is_Some (acc !! k)) then acc
    else match ov with Some v => <[k := v]> acc | None => acc end) e d.

Definition load_dotenv (entries : list dotenv_entry) (e : environ) : environ :=
  set_as_environment_variables (dotenv_dict entries) e.

(** ** Properties *)

(** The loop equals a left-biased union: a variable already set in the
    process environment wins over the file. *)
Lemma set_as_environment_variables_union d e :
  set_as_environment_variables d e = e ∪ omap id d.
Proof.
  unfold set_as_environment_variables.
  induction d as [|k ov d Hk Hfst IH] using map_first_key_ind.
  - rewrite map_fold_empty, omap_empty. by rewrite map_union_empty.
  - rewrite map_fold_insert_first_key, IH by done.
    apply map_eq. intros j.
    assert (omap id d !! k = None) as Hk' by (by rewrite lookup_omap, Hk).
    case_bool_decide as Hs; [|destruct ov as [v|]];
      rewrite ?lookup_insert, !lookup_union, !lookup_omap, lookup_insert;
      destruct (decide (k = j)) as [<-|]; try done;
      rewrite lookup_union, Hk' in Hs || rewrite lookup_union, Hk' in *;
      destruct (e !! k); rewrite ?Hk; simpl in *; try done; try destruct ov; simpl; try done;
      first [by destruct Hs as [? ?] | by exfalso; apply Hs; eexists].
Qed.

(** The entry of the [.env] file that decides a key: the last one. *)
Definition dotenv_last (k : string) (entries : list dotenv_entry) : option (option string) :=
  snd <$> List.find (fun kv => bool_decide (kv.1 = k)) (rev entries).

Lemma dotenv_dict_lookup entries k : dotenv_dict entries !! k = dotenv_last k entries.
Proof.
  unfold dotenv_dict, dotenv_last. induction entries as [|[k' v] entries IH] using rev_ind; [done|].
  rewrite foldl_app, rev_app_distr. simpl. rewrite lookup_insert.
  case_bool_decide; destruct (decide (k' = k)); simplify_eq; done.
Qed.

(** C16: after [load_dotenv()], [os.getenv(k, d)] is the process
    environment's value of [k] when it has one, else the value of the last
    [.env] line for [k] when that line has one, else [d]. *)
Theorem getenv_load_dotenv entries e k d :
  getenv (load_dotenv entries e) k d =
  match e !! k with
  | Some v => v
  | None => match dotenv_last k entries with Some (Some v) => v | _ => d end
  end.
Proof.
  unfold getenv, load_dotenv.
  rewrite set_as_environment_variables_union, lookup_union, lookup_omap, dotenv_dict_lookup.
  by destruct (e !! k), (dotenv_last k entries) as [[]|].
Qed.

End Env.
