(* ===== verification/Logging.v ===== *)
(** * The [logging] calls of [main.py]

    Line 53 runs [logging.basicConfig(level=logging.INFO)], line 54 takes
    [logging.getLogger("bybit-mcp")], and [main()] (line 116) logs
    [logger.info("Starting Bybit MCP Server in %s mode", transport)].
    This file models the part of the standard [logging] module these
    calls exercise: the root logger's level (WARNING at start) and its
    handlers, each with its own level and formatter (one installed by an
    earlier import may have any); [basicConfig], which installs a stderr
    handler of level NOTSET with the
    format ["%(levelname)s:%(name)s:%(message)s"] only when the root has
    no handler yet; a named logger of level NOTSET, whose effective level
    is the root's; [%]-formatting of the message; and the lines an
    emitted record writes to stderr, through those of the root's handlers
    whose level it reaches, each in its own format, or, when
    there are none, through [logging.lastResort] (WARNING and above,
    message only).  Handler filters and the [--- Logging error ---]
    report of a failed [%]-format are not modelled (the template of line
    116 has one [%s] and gets one argument).  [info_after_basicConfig] gives the startup record for
    every configuration the root may have before line 53, and
    [percent_format_fill] proves [%]-formatting equal to a reference that
    fills the [%s] holes of a template in order. *)

From S2P Require Import Prelude PyStr PyInt.
From stdpp Require Import options.

Module Logging.

Local Open Scope N_scope.

Definition NOTSET : N := 0.
Definition DEBUG : N := 10.
Definition INFO : N := 20.
Definition WARNING : N := 30.
Definition ERROR : N := 40.
Definition CRITICAL : N := 50.

(** [logging.getLevelName]. *)
Definition level_name (l : N) : string :=
  if l =? CRITICAL then "CRITICAL" else if l =? ERROR then "ERROR"
  else if l =? WARNING then "WARNING" else if l =? INFO then "INFO"
  else if l =? DEBUG then "DEBUG" else if l =? NOTSET then "NOTSET"
  else "Level " +:+ PyInt.str_of_N l.

(** [BASIC_FORMAT], ["%(levelname)s:%(name)s:%(message)s"]. *)
Definition format_basic (level : N) (name msg : string) : string :=
  level_name level +:+ ":" +:+ name +:+ ":" +:+ msg.

(** A handler of the root logger: its level, and its formatter, the line
    it writes for a record of a level, a logger name and a message.  A
    handler installed before line 53 (by an imported module) may have any
    level and any format. *)
Record handler := mk_handler {
  h_level : N;
  h_format : N -> string -> string -> string;
}.

(** [basicConfig]'s [StreamHandler(sys.stderr)]: level NOTSET, formatter
    [BASIC_FORMAT]. *)
Definition basic_handler : handler := mk_handler NOTSET format_basic.

Record state := mk_state { root_level : N; root_handlers : list handler }.

(** The root logger before any configuration. *)
Definition initial : state := mk_state WARNING [].

Definition basicConfig (level : N) (st : state) : state :=
  match root_handlers st with
  | [] => mk_state level [basic_handler]
  | _ :: _ => st
  end.

Record logger := mk_logger { lg_name : string; lg_level : N }.

Definition getLogger (name : string) : logger := mk_logger name NOTSET.

(** [Logger.getEffectiveLevel]: the first level that is not NOTSET on the
    way to the root. *)
Definition effective_level (st : state) (lg : logger) : N :=
  if lg_level lg =? NOTSET then root_level st else lg_level lg.

Definition isEnabledFor (st : state) (lg : logger) (level : N) : bool :=
  effective_level st lg <=? level.

(** [msg % args] for a template whose directives are [%s] and [%%]
    (the only ones the program's templates use); [None] stands for the
    [TypeError]/[ValueError] of a wrong number of arguments or another
    directive. *)
Fixpoint percent_format (t : string) (args : list string) : option string :=
  match t with
  | EmptyString => match args with [] => Some EmptyString | _ :: _ => None end
  | String c t' =>
      if bool_decide (c = "%"%char) then
        match t' with
        | String d t'' =>
            if bool_decide (d = "s"%char) then
              match args with
              | a :: args' => (fun r => a +:+ r) <$> percent_format t'' args'
              | [] => None
              end
            else if bool_decide (d = "%"%char) then String "%" <$> percent_format t'' args
            else None
        | EmptyString => None
        end
      else String c <$> percent_format t' args
  end.

(** The lines written to stderr by [lg.log(level, template, *args)]:
    [Logger.callHandlers] passes the record to each handler of the root
    whose level it reaches, or, when the root has no handler at all, to
    [lastResort]. *)
Definition emit (st : state) (lg : logger) (level : N) (template : string) (args : list string)
    : list string :=
  if isEnabledFor st lg level then
    match percent_format template args with
    | None => []
    | Some msg =>
        match root_handlers st with
        | [] => if WARNING <=? level then [msg] else []
        | hs => (fun h => h_format h level (lg_name lg) msg) <$> List.filter (fun h => h_level h <=? level) hs
        end
    end
  else [].

Definition info (st : state) (lg : logger) (template : string) (args : list string) : list string :=
  emit st lg INFO template args.

(** ** Lemmas *)

Lemma percent_format_plain t : PyStr.has_char "%" t = false -> percent_format t [] = Some t.
Proof.
  induction t as [|c t IH]; [done|]. cbn [PyStr.has_char].
  intros [Hc Ht]%orb_false_iff. apply bool_decide_eq_false in Hc. cbn [percent_format].
  rewrite bool_decide_eq_false_2 by congruence. by rewrite IH.
Qed.

Lemma percent_format_prefix pre t args :
  PyStr.has_char "%" pre = false ->
  percent_format (pre +:+ t) args = (fun r => pre +:+ r) <$> percent_format t args.
Proof.
  induction pre as [|c pre IH]; intros Hpre.
  - rewrite string_app_nil_l. by destruct (percent_format t args).
  - cbn [PyStr.has_char] in Hpre. apply orb_false_iff in Hpre as [Hc Hpre].
    apply bool_decide_eq_false in Hc. rewrite string_app_cons. cbn [percent_format].
    rewrite bool_decide_eq_false_2 by congruence. rewrite IH by done.
    destruct (percent_format t args); simpl; [by rewrite string_app_cons|done].
Qed.

Lemma percent_format_hole t args :
  percent_format ("%s" +:+ t) args =
    match args with a :: args' => (fun r => a +:+ r) <$> percent_format t args' | [] => None end.
Proof. rewrite !string_app_cons, string_app_nil_l. by destruct args. Qed.

(** A template with one [%s] and no other [%] substitutes its argument. *)
Lemma percent_format_one pre post a :
  PyStr.has_char "%" pre = false -> PyStr.has_char "%" post = false ->
  percent_format (pre +:+ "%s" +:+ post) [a] = Some (pre +:+ a +:+ post).
Proof.
  intros Hpre Hpost. rewrite percent_format_prefix, percent_format_hole, percent_format_plain by done.
  done.
Qed.

(** After [basicConfig(level=INFO)] on an unconfigured root, an INFO record
    of a NOTSET logger is written once, in the basic format. *)
Lemma info_configured name template args msg :
  percent_format template args = Some msg ->
  info (basicConfig INFO initial) (getLogger name) template args = [format_basic INFO name msg].
Proof. intros H. unfold info, emit. simpl. by rewrite H. Qed.

(** C20: the INFO record logged after [basicConfig(level=INFO)],
    whatever the logging configuration before it: on a root without
    handler it is written once, in the basic format; if the root already
    had handlers (a module imported earlier configured logging),
    [basicConfig] changes nothing, and the record is written only if the
    root's level lets INFO through, by each earlier handler whose own level
    does, in that handler's format. *)
Theorem info_after_basicConfig st name template args msg :
  percent_format template args = Some msg ->
  info (basicConfig INFO st) (getLogger name) template args =
    match root_handlers st with
    | [] => [format_basic INFO name msg]
    | hs =>
        if root_level st <=? INFO
        then (fun h => h_format h INFO name msg) <$> List.filter (fun h => h_level h <=? INFO) hs
        else []
    end.
Proof.
  intros Hf. unfold info, emit, basicConfig, isEnabledFor, effective_level. simpl.
  destruct (root_handlers st) as [|h hs] eqn:Hh; simpl; [by rewrite Hf|].
  rewrite Hh. destruct (root_level st <=? INFO); [|done]. by rewrite Hf.
Qed.

Lemma info_after_basicConfig_witness :
  percent_format "Starting Bybit MCP Server in %s mode" ["stdio"] =
    Some "Starting Bybit MCP Server in stdio mode" /\
  info (basicConfig INFO (mk_state INFO [mk_handler WARNING format_basic; basic_handler]))
    (getLogger "bybit-mcp") "Starting Bybit MCP Server in %s mode" ["stdio"] =
    ["INFO:bybit-mcp:Starting Bybit MCP Server in stdio mode"].
Proof.
  assert (percent_format "Starting Bybit MCP Server in %s mode" ["stdio"] =
    Some "Starting Bybit MCP Server in stdio mode") as Hf by (vm_compute; reflexivity).
  split; [exact Hf|].
  exact (info_after_basicConfig (mk_state INFO [mk_handler WARNING format_basic; basic_handler]) _ _ _ _ Hf).
Defined.

(** ** [%]-formatting against a reference *)

(** The template [s0 %s s1 %s ... %s sn]. *)
Fixpoint join_holes (s0 : string) (rest : list string) : string :=
  match rest with
  | [] => s0
  | s1 :: rest' => s0 +:+ "%s" +:+ join_holes s1 rest'
  end.

(** Filling the holes in order, one argument each: defined only when
    there are as many arguments as holes. *)
Fixpoint fill (s0 : string) (rest args : list string) : option string :=
  match rest, args with
  | [], [] => Some s0
  | s1 :: rest', a :: args' => (fun r => s0 +:+ a +:+ r) <$> fill s1 rest' args'
  | _, _ => None
  end.

(** C27: on a template whose only [%] directives are [%s]
    holes, [msg % args] is the reference [fill]: each hole replaced by
    the next argument, and the error of a wrong number of arguments
    exactly when there are not as many arguments as holes. *)
Theorem percent_format_fill s0 rest args :
  Forall (fun s => PyStr.has_char "%" s = false) (s0 :: rest) ->
  percent_format (join_holes s0 rest) args = fill s0 rest args.
Proof.
  revert s0 args. induction rest as [|s1 rest IH]; intros s0 args Hs;
    apply Forall_cons in Hs as [H0 Hs]; cbn [join_holes fill].
  - rewrite <- (string_app_nil_r s0) at 1. rewrite percent_format_prefix by done.
    destruct args; simpl; [by rewrite string_app_nil_r|done].
  - rewrite percent_format_prefix, percent_format_hole by done.
    destruct args as [|a args]; [done|]. rewrite IH by done.
    by destruct (fill s1 rest args).
Qed.

Lemma percent_format_fill_witness :
  Forall (fun s => PyStr.has_char "%" s = false) ["Starting Bybit MCP Server in "; " mode"] /\
  percent_format (join_holes "Starting Bybit MCP Server in " [" mode"]) ["sse"] =
    fill "Starting Bybit MCP Server in " [" mode"] ["sse"].
Proof.
  assert (Forall (fun s => PyStr.has_char "%" s = false) ["Starting Bybit MCP Server in "; " mode"]) as Hs
    by (repeat constructor).
  split; [exact Hs|]. exact (percent_format_fill _ _ _ Hs).
Defined.

End Logging.
