(* ===== verification/Registry.v ===== *)
(** * The tool registry and the registration script

    Lines 8-49 of [main.py] import 36 endpoint functions from the modules
    [market], [position] and [trade]; lines 60-99 register each of them
    with [server.add_tool(f)], which files it under [f.__name__].  The
    registry belongs to the MCP framework: its contract is the class
    [ToolRegistry] with the laws [ToolRegistryLaws] (a fresh name is
    added and nothing else changes; a duplicate may raise, as in the spec,
    or keep the first tool, as FastMCP does), and the script's theorems are proved
    against any lawful registry.  [SpecRegistry] is the registry of the
    spec (section 4.1: a map from names to tools that rejects a duplicate
    name), an instance of the interface; its exact outcome on a list of
    tools is given against the reference [first_dup]. *)

From S2P Require Import Prelude.
From stdpp Require Import fin_maps.

Module Registry.

(** The module an endpoint is imported from. *)
Inductive domain := Market | Trade | Position.

#[export] Instance domain_eq_dec : EqDecision domain.
Proof. solve_decision. Defined.

(** The imported endpoint functions, by module, as in lines 8-49. *)
Inductive endpoint :=
  (* from .market *)
  | get_funding_rate_history | get_index_price_kline | get_instruments_info
  | get_insurance | get_kline | get_long_short_ratio | get_mark_price_kline
  | get_open_interest | get_order_book | get_premium_index_price_kline
  | get_recent_trades | get_risk_limit | get_server_time | get_tickers
  (* from .position *)
  | get_closed_pnl | get_position_info | modify_position_margin
  | set_auto_add_margin | set_leverage | set_trading_stop
  | switch_cross_isolated_margin | switch_position_mode
  (* from .trade *)
  | amend_order | batch_amend_order | batch_cancel_order | batch_place_order
  | cancel_all_orders | cancel_order | get_account_info | get_open_closed_orders
  | get_order_history | get_single_coin_balance | get_trade_history
  | get_wallet_balance | place_order | place_trigger_order.

#[export] Instance endpoint_eq_dec : EqDecision endpoint.
Proof. solve_decision. Defined.

Definition endpoint_domain (f : endpoint) : domain :=
  match f with
  | get_funding_rate_history | get_index_price_kline | get_instruments_info
  | get_insurance | get_kline | get_long_short_ratio | get_mark_price_kline
  | get_open_interest | get_order_book | get_premium_index_price_kline
  | get_recent_trades | get_risk_limit | get_server_time | get_tickers => Market
  | get_closed_pnl | get_position_info | modify_position_margin
  | set_auto_add_margin | set_leverage | set_trading_stop
  | switch_cross_isolated_margin | switch_position_mode => Position
  | _ => Trade
  end.

(** [f.__name__], the name [add_tool] files the tool under: the name each
    function is imported by. *)
Definition tool_name (f : endpoint) : string :=
  match f with
  | get_funding_rate_history => "get_funding_rate_history"
  | get_index_price_kline => "get_index_price_kline"
  | get_instruments_info => "get_instruments_info"
  | get_insurance => "get_insurance"
  | get_kline => "get_kline"
  | get_long_short_ratio => "get_long_short_ratio"
  | get_mark_price_kline => "get_mark_price_kline"
  | get_open_interest => "get_open_interest"
  | get_order_book => "get_order_book"
  | get_premium_index_price_kline => "get_premium_index_price_kline"
  | get_recent_trades => "get_recent_trades"
  | get_risk_limit => "get_risk_limit"
  | get_server_time => "get_server_time"
  | get_tickers => "get_tickers"
  | get_closed_pnl => "get_closed_pnl"
  | get_position_info => "get_position_info"
  | modify_position_margin => "modify_position_margin"
  | set_auto_add_margin => "set_auto_add_margin"
  | set_leverage => "set_leverage"
  | set_trading_stop => "set_trading_stop"
  | switch_cross_isolated_margin => "switch_cross_isolated_margin"
  | switch_position_mode => "switch_position_mode"
  | amend_order => "amend_order"
  | batch_amend_order => "batch_amend_order"
  | batch_cancel_order => "batch_cancel_order"
  | batch_place_order => "batch_place_order"
  | cancel_all_orders => "cancel_all_orders"
  | cancel_order => "cancel_order"
  | get_account_info => "get_account_info"
  | get_open_closed_orders => "get_open_closed_orders"
  | get_order_history => "get_order_history"
  | get_single_coin_balance => "get_single_coin_balance"
  | get_trade_history => "get_trade_history"
  | get_wallet_balance => "get_wallet_balance"
  | place_order => "place_order"
  | place_trigger_order => "place_trigger_order"
  end.

(** ** The registry's contract *)

Class ToolRegistry (R : Type) := {
  reg_empty : R;
  (** [server.add_tool(f)]: the new registry, or the exception raised. *)
  reg_add : endpoint -> R -> py_exc + R;
  (** The tool the server dispatches a call of [name] to. *)
  reg_lookup : R -> string -> option endpoint;
}.

Class ToolRegistryLaws (R : Type) `{ToolRegistry R} := {
  reg_lookup_empty n : reg_lookup reg_empty n = None;
  reg_add_fresh f r :
    reg_lookup r (tool_name f) = None ->
    exists r', reg_add f r = inr r' /\
      forall n, reg_lookup r' n = if decide (n = tool_name f) then Some f else reg_lookup r n;
}.

(** ** The spec's registry: unique names, a duplicate is an error *)

Definition spec_add_tool (f : endpoint) (m : gmap string endpoint) : py_exc + gmap string endpoint :=
  match m !! tool_name f with
  | Some _ => inl (ValueError ("Tool already exists: " +:+ tool_name f))
  | None => inr (<[tool_name f := f]> m)
  end.

#[export] Instance SpecRegistry : ToolRegistry (gmap string endpoint) := {
  reg_empty := ∅;
  reg_add := spec_add_tool;
  reg_lookup m n := m !! n;
}.

#[export] Instance SpecRegistry_laws : ToolRegistryLaws (gmap string endpoint).
Proof.
  split.
  - intros n. apply lookup_empty.
  - intros f m Hm. simpl in *. exists (<[tool_name f := f]> m). unfold spec_add_tool.
    rewrite Hm. split; [done|]. intros n. rewrite lookup_insert. by destruct (decide _), (decide _); subst.
Qed.

(** ** The registration script, lines 60-99 *)

Definition market_tools : list endpoint :=
  [get_server_time; get_tickers; get_order_book; get_recent_trades; get_kline;
   get_mark_price_kline; get_index_price_kline; get_premium_index_price_kline;
   get_instruments_info; get_funding_rate_history; get_open_interest; get_insurance;
   get_risk_limit; get_long_short_ratio].

Definition trading_tools : list endpoint :=
  [place_order; amend_order; cancel_order; get_open_closed_orders; cancel_all_orders;
   get_order_history; get_trade_history; batch_place_order; batch_amend_order;
   batch_cancel_order; get_wallet_balance; get_single_coin_balance; get_account_info;
   place_trigger_order].

Definition position_tools : list endpoint :=
  [get_position_info; get_closed_pnl; set_leverage; switch_cross_isolated_margin;
   switch_position_mode; set_trading_stop; set_auto_add_margin; modify_position_margin].

Definition registration_script : list endpoint := market_tools ++ trading_tools ++ position_tools.

(** One [server.add_tool(f)] statement after another; the first that
    raises stops the module. *)
Fixpoint register_all `{ToolRegistry R} (fs : list endpoint) (r : R) : py_exc + R :=
  match fs with
  | [] => inr r
  | f :: fs' =>
      match reg_add f r with
      | inl e => inl e
      | inr r' => register_all fs' r'
      end
  end.

(** ** The script against any lawful registry *)

(** The dispatch table a list of tools defines: the first with the name. *)
Definition table (fs : list endpoint) (n : string) : option endpoint :=
  List.find (fun f => bool_decide (tool_name f = n)) fs.

Lemma table_cons f fs n :
  table (f :: fs) n = if bool_decide (tool_name f = n) then Some f else table fs n.
Proof. reflexivity. Qed.

Lemma table_Some fs n f : table fs n = Some f -> f ∈ fs /\ tool_name f = n.
Proof.
  induction fs as [|g fs IH]; [done|]. rewrite table_cons.
  case_bool_decide; intros Hf; simplify_eq; [split; [left|done]|].
  destruct (IH Hf). split; [by right|done].
Qed.

Lemma table_None fs n : table fs n = None <-> n ∉ tool_name <$> fs.
Proof.
  induction fs as [|g fs IH]; [split; [intros _; apply not_elem_of_nil|done]|].
  rewrite fmap_cons, not_elem_of_cons, table_cons, <- IH.
  case_bool_decide as Hg; split.
  - done.
  - intros [Hne _]. congruence.
  - intros H. split; [congruence|done].
  - by intros [_ H].
Qed.

(** Unique names single out one tool. *)
Lemma names_unique fs f g :
  NoDup (tool_name <$> fs) -> f ∈ fs -> g ∈ fs -> tool_name f = tool_name g -> f = g.
Proof.
  induction fs as [|h fs IH]; [by intros _ ?%not_elem_of_nil|].
  rewrite fmap_cons, NoDup_cons, !elem_of_cons.
  intros [Hh Hnd] [->|Hf] [->|Hg] Heq; try done.
  - destruct Hh. rewrite Heq. by apply list_elem_of_fmap_2.
  - destruct Hh. rewrite <- Heq. by apply list_elem_of_fmap_2.
  - by apply IH.
Qed.

Lemma table_spec fs n f :
  NoDup (tool_name <$> fs) -> table fs n = Some f <-> f ∈ fs /\ tool_name f = n.
Proof.
  intros Hnd. split; [apply table_Some|]. intros [Hf <-].
  destruct (table fs (tool_name f)) as [g|] eqn:E.
  - apply table_Some in E as [Hg Hn]. f_equal. by apply (names_unique fs).
  - apply table_None in E. destruct E. by apply list_elem_of_fmap_2.
Qed.

(** Reordering tools with unique names does not change the table. *)
Lemma table_perm l1 l2 n :
  NoDup (tool_name <$> l1) -> l1 ≡ₚ l2 -> table l1 n = table l2 n.
Proof.
  intros Hnd Hp. assert (NoDup (tool_name <$> l2)) as Hnd2 by (by rewrite <- Hp).
  destruct (table l2 n) as [g|] eqn:E2.
  - apply table_spec; [done|]. apply table_spec in E2 as [Hg Hn]; [|done].
    split; [by rewrite Hp|done].
  - apply table_None. apply table_None in E2. by rewrite Hp.
Qed.

(** Two registries that dispatch every name to the same tool. *)
Definition reg_equiv `{ToolRegistry R} (r1 r2 : R) : Prop :=
  forall n, reg_lookup r1 n = reg_lookup r2 n.

#[export] Instance reg_equiv_equivalence `{ToolRegistry R} : Equivalence (@reg_equiv R _).
Proof. split; [done|intros ?? He n; by rewrite He|intros ??? H1 H2 n; by rewrite H1, H2]. Qed.

Lemma script_names_NoDup : NoDup (tool_name <$> registration_script).
Proof. apply (bool_decide_unpack (NoDup (tool_name <$> registration_script))). vm_compute. reflexivity. Qed.

Lemma script_table_names f : table registration_script (tool_name f) = Some f.
Proof. destruct f; vm_compute; reflexivity. Qed.

Section Script.
Context `{Hlaws : ToolRegistryLaws R}.

Lemma register_all_fresh fs r :
  NoDup (tool_name <$> fs) -> Forall (fun f => reg_lookup r (tool_name f) = None) fs ->
  exists r', register_all fs r = inr r' /\
    forall n, reg_lookup r' n = match table fs n with Some f => Some f | None => reg_lookup r n end.
Proof.
  revert r. induction fs as [|f fs IH]; intros r Hnd Hfr; cbn [register_all]; [by exists r|].
  rewrite fmap_cons in Hnd. apply NoDup_cons in Hnd as [Hnotin Hnd].
  apply Forall_cons in Hfr as [Hf Hfs].
  destruct (reg_add_fresh f r Hf) as (r1 & -> & Hr1).
  destruct (IH r1) as (r2 & -> & Hr2); [done| |].
  - apply Forall_forall. intros g Hg. rewrite Hr1. destruct (decide _) as [Heq|].
    + exfalso. apply Hnotin. rewrite <- Heq. by apply list_elem_of_fmap_2.
    + by eapply Forall_forall in Hfs.
  - exists r2. split; [done|]. intros n. rewrite Hr2, Hr1, table_cons.
    case_bool_decide as Hn; destruct (decide (n = tool_name f)); try congruence.
    subst. by rewrite (proj2 (table_None _ _) Hnotin).
Qed.

Lemma register_all_empty fs :
  NoDup (tool_name <$> fs) ->
  exists r, register_all fs reg_empty = inr r /\ forall n, reg_lookup r n = table fs n.
Proof.
  intros Hnd. destruct (register_all_fresh fs reg_empty) as (r & Hr & Hl); [done| |].
  - apply Forall_forall. intros f _. apply reg_lookup_empty.
  - exists r. split; [done|]. intros n. rewrite Hl, reg_lookup_empty. by destruct (table fs n).
Qed.

(** C8: running lines 60-99 against an empty registry
    raises nothing, and leaves every imported endpoint dispatched under
    its name and no other name registered. *)
Theorem registration_script_ok :
  exists r, register_all registration_script reg_empty = inr r /\
    (forall f, reg_lookup r (tool_name f) = Some f) /\
    (forall n f, reg_lookup r n = Some f -> n = tool_name f).
Proof.
  destruct (register_all_empty registration_script script_names_NoDup) as (r & Hr & Hl).
  exists r. split_and!; [done| |].
  - intros f. by rewrite Hl, script_table_names.
  - intros n f. rewrite Hl. by intros [_ <-]%table_Some.
Qed.

(** C9: registering the same tools in any other order gives a
    registry that dispatches every name the same way. *)
Theorem registration_order_irrelevant l :
  l ≡ₚ registration_script ->
  exists r r', register_all l reg_empty = inr r /\
    register_all registration_script reg_empty = inr r' /\ reg_equiv r r'.
Proof.
  intros Hp. assert (NoDup (tool_name <$> l)) as Hnd
    by (rewrite Hp; apply script_names_NoDup).
  destruct (register_all_empty l Hnd) as (r & Hr & Hl).
  destruct (register_all_empty registration_script script_names_NoDup) as (r' & Hr' & Hl').
  exists r, r'. split_and!; [done|done|]. intros n. by rewrite Hl, Hl', (table_perm l registration_script).
Qed.
End Script.

Lemma registration_script_ok_witness :
  ToolRegistryLaws (gmap string endpoint) /\
  exists r : gmap string endpoint, register_all registration_script reg_empty = inr r /\
    (forall f, reg_lookup r (tool_name f) = Some f) /\
    (forall n f, reg_lookup r n = Some f -> n = tool_name f).
Proof. split; [exact SpecRegistry_laws|]. exact registration_script_ok. Defined.

Lemma registration_order_irrelevant_witness :
  rev registration_script ≡ₚ registration_script /\
  exists r r' : gmap string endpoint, register_all (rev registration_script) reg_empty = inr r /\
    register_all registration_script reg_empty = inr r' /\ reg_equiv r r'.
Proof.
  split; [apply Permutation_sym, Permutation_rev|].
  apply registration_order_irrelevant, Permutation_sym, Permutation_rev.
Defined.

(** For the spec's registry, dispatching alike is equality of maps. *)
Lemma spec_reg_equiv_eq (r1 r2 : gmap string endpoint) : reg_equiv r1 r2 -> r1 = r2.
Proof. intros H. apply map_eq, H. Qed.

(** ** The spec's registry rejects duplicates *)

Lemma fresh_after_insert (m : gmap string endpoint) n f fs :
  Forall (fun g => <[n := f]> m !! tool_name g = None) fs <->
  n ∉ tool_name <$> fs /\ Forall (fun g => m !! tool_name g = None) fs.
Proof.
  rewrite list_elem_of_fmap, !Forall_forall. setoid_rewrite lookup_insert_None. naive_solver.
Qed.

Lemma spec_register_all_ok fs (m : gmap string endpoint) :
  (exists r, register_all fs m = inr r) <->
  NoDup (tool_name <$> fs) /\ Forall (fun f => m !! tool_name f = None) fs.
Proof.
  revert m. induction fs as [|f fs IH]; intros m; cbn [register_all].
  { split; [intros _; split; constructor|by eexists]. }
  cbn [reg_add SpecRegistry]. unfold spec_add_tool.
  rewrite fmap_cons, NoDup_cons, Forall_cons.
  destruct (m !! tool_name f) as [g|] eqn:Hf.
  - split; [by intros [r ?]|]. intros (_ & ? & _). congruence.
  - rewrite IH, fresh_after_insert. naive_solver.
Qed.

(** C21: the spec's registry (section 4.1) accepts a sequence
    of [register] calls from empty exactly when the names are unique; a
    repeated name makes the sequence raise. *)
Theorem spec_registry_unique_names fs :
  (exists r : gmap string endpoint, register_all fs reg_empty = inr r) <-> NoDup (tool_name <$> fs).
Proof.
  rewrite spec_register_all_ok. split; [by intros []|].
  intros Hnd. split; [done|]. apply Forall_forall. intros f _. apply lookup_empty.
Qed.

Lemma spec_registry_unique_names_witness :
  NoDup (tool_name <$> registration_script) /\
  exists r : gmap string endpoint, register_all registration_script reg_empty = inr r.
Proof.
  assert (NoDup (tool_name <$> registration_script)) as Hnd.
  { apply (bool_decide_unpack (NoDup (tool_name <$> registration_script))). vm_compute. reflexivity. }
  split; [exact Hnd|]. exact (proj2 (spec_registry_unique_names registration_script) Hnd).
Defined.

(** ** The spec's registry, exactly *)

(** The first name of [ns] already in [seen] or earlier in [ns]. *)
Fixpoint first_dup (seen : gset string) (ns : list string) : option string :=
  match ns with
  | [] => None
  | n :: ns' => if decide (n ∈ seen) then Some n else first_dup ({[n]} ∪ seen) ns'
  end.

Definition tool_entries (fs : list endpoint) : list (string * endpoint) :=
  (fun f => (tool_name f, f)) <$> fs.

Lemma first_dup_None seen ns n : first_dup seen ns = None -> n ∈ seen -> n ∉ ns.
Proof.
  revert seen. induction ns as [|m ns IH]; intros seen; simpl; [intros _ _; apply not_elem_of_nil|].
  case_decide as Hm; [done|]. intros Hd Hn. rewrite elem_of_cons. intros [->|Hin]; [done|].
  apply (IH _ Hd); [set_solver|done].
Qed.

Lemma spec_register_all_eq fs (m : gmap string endpoint) :
  register_all fs m =
    match first_dup (dom m) (tool_name <$> fs) with
    | Some n => inl (ValueError ("Tool already exists: " +:+ n))
    | None => inr (list_to_map (tool_entries fs) ∪ m)
    end.
Proof.
  revert m. induction fs as [|f fs IH]; intros m; cbn [register_all].
  { simpl. by rewrite (left_id_L ∅ (∪)). }
  cbn [reg_add SpecRegistry]. unfold spec_add_tool. rewrite fmap_cons. cbn [first_dup].
  destruct (m !! tool_name f) as [g|] eqn:Hf.
  - rewrite decide_True by (apply elem_of_dom; eauto). done.
  - rewrite decide_False by (by apply not_elem_of_dom). rewrite IH, dom_insert_L.
    destruct (first_dup _ _) as [n|] eqn:Hd; [done|]. f_equal.
    assert (tool_name f ∉ (tool_entries fs).*1) as Hnot.
    { unfold tool_entries. rewrite <- list_fmap_compose.
      apply (first_dup_None _ _ _ Hd). set_solver. }
    change (tool_entries (f :: fs)) with ((tool_name f, f) :: tool_entries fs).
    rewrite list_to_map_cons, <- insert_union_l, <- insert_union_r
      by (by apply not_elem_of_list_to_map_1). done.
Qed.

(** C23: the spec's registry, exactly: registering [fs] from
    empty raises [Tool already exists] for the first name that repeats an
    earlier one, and otherwise yields the map from each tool's name to
    the tool. *)
Theorem spec_register_all_result fs :
  register_all (R := gmap string endpoint) fs reg_empty =
    match first_dup ∅ (tool_name <$> fs) with
    | Some n => inl (ValueError ("Tool already exists: " +:+ n))
    | None => inr (list_to_map (tool_entries fs))
    end.
Proof.
  cbn [reg_empty SpecRegistry]. rewrite spec_register_all_eq, dom_empty_L.
  destruct (first_dup _ _); [done|]. by rewrite (right_id_L ∅ (∪)).
Qed.

End Registry.
