(* ===== verification/Resource.v ===== *)
(** * The [bybit://market/info] resource

    Lines 101-112 of [main.py] register, with the decorator
    [@server.resource("bybit://market/info", name=..., mime_type="text/plain")],
    the function [market_info()], which returns a fixed text.  This file
    holds the text (the Python literals joined, each [\n] a newline), the
    resource descriptor, and the endpoints the text lists: its lines that
    start with ["- "]. *)

From S2P Require Import Prelude Registry.
From stdpp Require Import options.

Module Resource.
Import Registry.

Definition nl : string := String "010" EmptyString.

(** [market_info()], lines 102-112. *)
Definition market_info : string :=
  "# Bybit MCP Server" +:+ nl +:+ nl +:+
  "This MCP server provides access to Bybit's v5 Market API endpoints." +:+ nl +:+ nl +:+
  "## Available Endpoints:" +:+ nl +:+
  "- get_server_time" +:+ nl +:+ "- get_tickers" +:+ nl +:+ "- get_order_book" +:+ nl +:+
  "- get_recent_trades" +:+ nl +:+
  "- get_kline" +:+ nl +:+ "- get_mark_price_kline" +:+ nl +:+ "- get_index_price_kline" +:+ nl +:+
  "- get_premium_index_price_kline" +:+ nl +:+ "- get_instruments_info" +:+ nl +:+
  "- get_funding_rate_history" +:+ nl +:+ "- get_open_interest" +:+ nl +:+ "- get_insurance" +:+ nl +:+
  "- get_risk_limit" +:+ nl +:+ "- get_long_short_ratio" +:+ nl.

(** A static resource: its URI, display name, MIME type and the function
    that produces its content. *)
Record resource := mk_resource {
  res_uri : string;
  res_name : string;
  res_mime : string;
  res_fn : unit -> string;
}.

(** The descriptor the decorator of line 101 builds. *)
Definition market_info_resource : resource :=
  mk_resource "bybit://market/info" "Bybit Market Information" "text/plain" (fun _ => market_info).

(** ** Reading the text *)

(** [s.split("\n")]. *)
Fixpoint split_lines_acc (cur : string) (s : string) : list string :=
  match s with
  | EmptyString => [String.rev cur]
  | String c s' =>
      if bool_decide (c = "010"%char) then String.rev cur :: split_lines_acc EmptyString s'
      else split_lines_acc (String c cur) s'
  end.

Definition split_lines (s : string) : list string := split_lines_acc EmptyString s.

(** The names on the lines [- name]. *)
Definition listed_endpoints (s : string) : list string :=
  omap (fun l => match l with
                 | String "-" (String " " name) => Some name
                 | _ => None
                 end) (split_lines s).

(** ** What the text lists *)

(** The listing is the market tools, in the order lines 60-73 register them. *)
Lemma market_info_listing :
  listed_endpoints market_info =
  tool_name <$> filter (fun f => endpoint_domain f = Market) registration_script.
Proof. vm_compute. reflexivity. Qed.

Lemma listed_market_b : forall f,
  bool_decide (tool_name f ∈ listed_endpoints market_info) = bool_decide (endpoint_domain f = Market).
Proof. intros []; vm_compute; reflexivity. Qed.

(** C17: a registered tool is named under "Available
    Endpoints" exactly when it comes from the market module: the 14 trading
    and 8 position tools the server also registers are not listed. *)
Theorem market_info_lists_exactly_market f :
  tool_name f ∈ listed_endpoints market_info <-> endpoint_domain f = Market.
Proof. apply (bool_decide_eq_iff _ _ (listed_market_b f)). Qed.

End Resource.
