(* ===== verification/Server.v ===== *)
(** * The FastMCP server object and the process state

    Line 57 builds [server = FastMCP(name="bybit-mcp", host="0.0.0.0",
    port=port)]; lines 60-112 add tools and the resource to it; [main()]
    starts it with [run_stdio_async()] or [run_sse_async()].  The server
    keeps its settings, its tool registry (any [ToolRegistry]) and its
    resources by URI.  The framework's serving loop is not modelled: a run
    is the event it starts with (serve on the standard streams, or bind
    [host:port] and serve SSE), recorded in the output of the process.
    The process state holds the environment, the [.env] file, the logging
    configuration and that output. *)

From S2P Require Import Prelude Env Logging Registry Resource.
From stdpp Require Import fin_maps.

Module Server.
Import Registry Resource.

Record server (R : Type) := mk_server {
  srv_name : string;
  srv_host : string;
  srv_port : Z;
  srv_tools : R;
  srv_resources : gmap string resource;
}.
Arguments mk_server {R}.
Arguments srv_name {R}. Arguments srv_host {R}. Arguments srv_port {R}.
Arguments srv_tools {R}. Arguments srv_resources {R}.

(** [FastMCP(name=..., host=..., port=...)]: the settings as given (the
    port is any [int]; nothing checks its range), no tools, no resources. *)
Definition FastMCP `{ToolRegistry R} (name host : string) (port : Z) : server R :=
  mk_server name host port reg_empty ∅.

Definition with_tools {R} (s : server R) (t : R) : server R :=
  mk_server (srv_name s) (srv_host s) (srv_port s) t (srv_resources s).

(** [server.add_tool(fn)]. *)
Definition add_tool `{ToolRegistry R} (f : endpoint) (s : server R) : py_exc + server R :=
  match reg_add f (srv_tools s) with
  | inl e => inl e
  | inr t => inr (with_tools s t)
  end.

(** Lines 60-99, one [add_tool] after another. *)
Fixpoint add_tools `{ToolRegistry R} (fs : list endpoint) (s : server R) : py_exc + server R :=
  match fs with
  | [] => inr s
  | f :: fs' =>
      match add_tool f s with
      | inl e => inl e
      | inr s' => add_tools fs' s'
      end
  end.

(** [@server.resource(uri, ...)] on a function: a static resource filed
    under its URI; a URI already present keeps its first resource. *)
Definition add_resource {R} (r : resource) (s : server R) : server R :=
  match srv_resources s !! res_uri r with
  | Some _ => s
  | None => mk_server (srv_name s) (srv_host s) (srv_port s) (srv_tools s)
              (<[res_uri r := r]> (srv_resources s))
  end.

(** A [resources/read] request: the content the resource's function returns. *)
Definition read_resource {R} (s : server R) (uri : string) : option string :=
  (fun r => res_fn r tt) <$> srv_resources s !! uri.

(** ** Observable output of the process *)

Inductive event :=
  | Stderr (line : string)
  | ServeStdio
  | ServeSse (host : string) (port : Z).

Record proc := mk_proc {
  p_env : Env.environ;
  p_dotenv : list Env.dotenv_entry;
  p_log : Logging.state;
  p_out : list event;
}.

Definition set_env (e : Env.environ) (p : proc) : proc := mk_proc e (p_dotenv p) (p_log p) (p_out p).
Definition set_log (l : Logging.state) (p : proc) : proc := mk_proc (p_env p) (p_dotenv p) l (p_out p).
Definition output (evs : list event) (p : proc) : proc :=
  mk_proc (p_env p) (p_dotenv p) (p_log p) (p_out p ++ evs).

(** [logger.info(template, *args)]. *)
Definition log_info (lg : Logging.logger) (template : string) (args : list string) : PyM proc unit :=
  modify (fun p => output (Stderr <$> Logging.info (p_log p) lg template args) p).

(** [await server.run_stdio_async()]: serve on stdin/stdout. *)
Definition run_stdio_async {R} (s : server R) : PyM proc unit := modify (output [ServeStdio]).

(** [await server.run_sse_async()]: bind the server's host and port and
    serve Server-Sent Events over HTTP. *)
Definition run_sse_async {R} (s : server R) : PyM proc unit :=
  modify (output [ServeSse (srv_host s) (srv_port s)]).

(** ** Lemmas *)

(** Adding tools to the server is registering them in its registry. *)
Lemma add_tools_register_all `{ToolRegistry R} fs (s : server R) :
  add_tools fs s =
  match register_all fs (srv_tools s) with inl e => inl e | inr t => inr (with_tools s t) end.
Proof.
  revert s. induction fs as [|f fs IH]; intros s; simpl; [by destruct s|].
  unfold add_tool. destruct (reg_add f (srv_tools s)) as [e|t]; [done|]. by rewrite IH.
Qed.

Lemma add_resource_settings {R} r (s : server R) :
  srv_host (add_resource r s) = srv_host s /\ srv_port (add_resource r s) = srv_port s /\
  srv_tools (add_resource r s) = srv_tools s.
Proof. unfold add_resource. by destruct (srv_resources s !! res_uri r). Qed.

Lemma read_resource_added {R} r (s : server R) :
  srv_resources s !! res_uri r = None -> read_resource (add_resource r s) (res_uri r) = Some (res_fn r tt).
Proof. intros H. unfold read_resource, add_resource. rewrite H. simpl. by rewrite lookup_insert_eq. Qed.

(** On a server without resources, the decorator's resource is the only
    one a read finds. *)
Lemma read_resource_only {R} r (s : server R) uri :
  srv_resources s = ∅ ->
  read_resource (add_resource r s) uri =
    if bool_decide (uri = res_uri r) then Some (res_fn r tt) else None.
Proof.
  intros He. unfold read_resource, add_resource. rewrite He, lookup_empty. simpl.
  case_bool_decide as Hu; [subst; by rewrite lookup_insert_eq|].
  by rewrite lookup_insert_ne, lookup_empty by congruence.
Qed.

End Server.
