(* ===== verification/Transport.v ===== *)
(** * [main()]: choosing the transport

    [async def main()] (lines 114-122) reads [MCP_TRANSPORT] (default
    ["stdio"]), lowercases it, logs the startup line, and then serves on
    the standard streams for ["stdio"], serves SSE for ["sse"], and raises
    [ValueError] for anything else.  The spec's Transport Selector is the
    abstract function [select_mode] from the configured value to a mode;
    [main_refines_select] shows that [main] implements it. *)

From S2P Require Import Prelude PyStr Env Logging Registry Resource Server.
From stdpp Require Import options.

Module Transport.
Import Registry Server.

(** The module-level names [main()] reads: [logger], [port], [server]. *)
Record globals (R : Type) := mk_globals {
  g_logger : Logging.logger;
  g_port : Z;
  g_server : server R;
}.
Arguments mk_globals {R}.
Arguments g_logger {R}. Arguments g_port {R}. Arguments g_server {R}.

Definition start_template : string := "Starting Bybit MCP Server in %s mode".

Definition unsupported_msg (transport : string) : string :=
  "Unsupported MCP_TRANSPORT mode: " +:+ transport.

(** Line 115: [os.getenv("MCP_TRANSPORT", "stdio").lower()]. *)
Definition transport_value (p : proc) : string :=
  PyStr.lower (Env.getenv (p_env p) "MCP_TRANSPORT" "stdio").

Definition main {R} (g : globals R) : PyM proc unit :=
  transport ← gets transport_value;
  log_info (g_logger g) start_template [transport];;
  if bool_decide (transport = "stdio") then run_stdio_async (g_server g)
  else if bool_decide (transport = "sse") then run_sse_async (g_server g)
  else throw (ValueError (unsupported_msg transport)).

(** ** The abstract selector of the spec *)

Inductive mode := StandardStream | StreamingHttp.

#[export] Instance mode_eq_dec : EqDecision mode.
Proof. solve_decision. Defined.

(** Section 4.3: the configured value, case-normalised, picks a mode;
    any other value is a configuration error. *)
Definition select_mode (value : string) : option mode :=
  if bool_decide (PyStr.lower value = "stdio") then Some StandardStream
  else if bool_decide (PyStr.lower value = "sse") then Some StreamingHttp
  else None.

(** What running in a mode does. *)
Definition serve_event {R} (s : server R) (m : mode) : event :=
  match m with
  | StandardStream => ServeStdio
  | StreamingHttp => ServeSse (srv_host s) (srv_port s)
  end.

(** ** [main] against the selector *)

(** The lines [main] logs before it branches. *)
Definition startup_lines {R} (g : globals R) (p : proc) : list event :=
  Stderr <$> Logging.info (p_log p) (g_logger g) start_template [transport_value p].

Lemma main_eq {R} (g : globals R) p :
  main g p =
  match select_mode (Env.getenv (p_env p) "MCP_TRANSPORT" "stdio") with
  | Some m => (inr (), output [serve_event (g_server g) m] (output (startup_lines g p) p))
  | None => (inl (ValueError (unsupported_msg (transport_value p))), output (startup_lines g p) p)
  end.
Proof.
  unfold main, select_mode, startup_lines, log_info, run_stdio_async, run_sse_async.
  pym_unfold. fold (transport_value p).
  destruct (bool_decide (transport_value p = "stdio")); [done|].
  by destruct (bool_decide (transport_value p = "sse")).
Qed.

(** C3: the value selects standard streams exactly when it is
    [stdio] with any of its letters capitalised, SSE exactly when it is
    [sse] so, and nothing otherwise; no other character below 256 passes
    for one of these letters. *)
Theorem select_mode_case_insensitive v :
  (select_mode v = Some StandardStream <-> PyStr.case_variant v "stdio") /\
  (select_mode v = Some StreamingHttp <-> PyStr.case_variant v "sse") /\
  (select_mode v = None <-> ~ PyStr.case_variant v "stdio" /\ ~ PyStr.case_variant v "sse").
Proof.
  rewrite <- !PyStr.lower_case_variant by reflexivity. unfold select_mode.
  case_bool_decide as H1; [|case_bool_decide as H2]; rewrite ?H1, ?H2;
    split_and!; split; intros; try done; naive_solver.
Qed.

Lemma main_unsupported_run {R} (g : globals R) p :
  select_mode (Env.getenv (p_env p) "MCP_TRANSPORT" "stdio") = None ->
  main g p = (inl (ValueError (unsupported_msg (transport_value p))), output (startup_lines g p) p).
Proof. intros H. by rewrite main_eq, H. Qed.

(** C2: [main()] writes its startup line and then does what the
    spec's selector says for the configured value: serve in the selected
    mode, or raise [ValueError("Unsupported MCP_TRANSPORT mode: " +
    value.lower())] having served nothing. *)
Theorem main_refines_select {R} (g : globals R) p :
  fst (main g p) =
    match select_mode (Env.getenv (p_env p) "MCP_TRANSPORT" "stdio") with
    | Some _ => inr ()
    | None => inl (ValueError (unsupported_msg (transport_value p)))
    end /\
  p_out (snd (main g p)) =
    p_out p ++ startup_lines g p ++
    match select_mode (Env.getenv (p_env p) "MCP_TRANSPORT" "stdio") with
    | Some m => [serve_event (g_server g) m]
    | None => []
    end.
Proof.
  rewrite main_eq. destruct (select_mode _); unfold output; simpl;
    by rewrite ?app_assoc, ?app_nil_r.
Qed.

(** C4: an unsupported value makes [main()] raise a
    [ValueError] whose message contains the (lowercased) value, after
    writing only log lines: no stream is attached and no socket bound. *)
Theorem main_unsupported {R} (g : globals R) p :
  select_mode (Env.getenv (p_env p) "MCP_TRANSPORT" "stdio") = None ->
  exists msg p', main g p = (inl (ValueError msg), p') /\
    contains msg (transport_value p) = true /\
    exists lines, p_out p' = p_out p ++ (Stderr <$> lines).
Proof.
  intros H. rewrite (main_unsupported_run g p H).
  eexists _, _. split; [done|]. split.
  - pose proof (contains_middle "Unsupported MCP_TRANSPORT mode: " (transport_value p) EmptyString)
      as Hm. by rewrite string_app_nil_r in Hm.
  - eexists. reflexivity.
Qed.

(** ** A concrete unsupported value *)

Definition example_globals : globals (gmap string Registry.endpoint) :=
  mk_globals (Logging.getLogger "bybit-mcp") 8000 (FastMCP "bybit-mcp" "0.0.0.0" 8000).

Definition foo_upper_proc : proc :=
  mk_proc (<["MCP_TRANSPORT" := "FOO"]> ∅) [] (Logging.basicConfig Logging.INFO Logging.initial) [].

Lemma main_unsupported_witness :
  select_mode (Env.getenv (p_env foo_upper_proc) "MCP_TRANSPORT" "stdio") = None /\
  exists msg p', main example_globals foo_upper_proc = (inl (ValueError msg), p') /\
    contains msg (transport_value foo_upper_proc) = true /\
    exists lines, p_out p' = p_out foo_upper_proc ++ (Stderr <$> lines).
Proof.
  assert (select_mode (Env.getenv (p_env foo_upper_proc) "MCP_TRANSPORT" "stdio") = None) as Hs
    by (vm_compute; reflexivity).
  split; [exact Hs|]. exact (main_unsupported example_globals foo_upper_proc Hs).
Defined.

(** The message names the lowercased value, not the one configured. *)
Example unsupported_message_lowercased :
  fst (main example_globals foo_upper_proc) = inl (ValueError "Unsupported MCP_TRANSPORT mode: foo").
Proof. vm_compute. reflexivity. Qed.

End Transport.
