(* ===== verification/Entry.v ===== *)
(** * Process start: the module's statements, [cli_main()], and the
      startup state machine

    Importing [bybit_mcp.main] runs lines 51-112 in order: [load_dotenv()],
    [logging.basicConfig(level=INFO)], [logger = getLogger("bybit-mcp")],
    [port = int(os.getenv("MCP_PORT", "8000"))], [server = FastMCP(...)],
    the 36 [add_tool] calls and the resource decorator.  The console entry
    point (or line 129-130) then calls [cli_main()], which runs [main()].
    [module_init] and [process] compose these statements in the [PyM]
    monad over the process state; [process_spec] gives the outcome of a
    start for every environment; [step] is the spec's state machine
    Unstarted -> Running(mode) -> Terminated, whose first step is what
    [process] computes and whose end (the serving loop returning or
    raising) belongs to the framework.  The machine is proved to be stuck
    only in [Terminated]; the server the import builds has exactly one
    resource. *)

From S2P Require Import Prelude PyStr PyInt Env Logging Registry Resource Server Transport.
From stdpp Require Import relations.

Module Entry.
Import Registry Resource Server Transport.

Section Entry.
Context `{Hlaws : ToolRegistryLaws R}.

(** Lines 51-112. *)
Definition module_init : PyM proc (globals R) :=
  modify (fun p => set_env (Env.load_dotenv (p_dotenv p) (p_env p)) p);;
  modify (fun p => set_log (Logging.basicConfig Logging.INFO (p_log p)) p);;
  let logger := Logging.getLogger "bybit-mcp" in
  port ← (e ← gets p_env; lift_exc (PyInt.py_int (Env.getenv e "MCP_PORT" "8000")));
  let server0 := FastMCP "bybit-mcp" "0.0.0.0" port in
  server1 ← lift_exc (add_tools registration_script server0);
  let server2 := add_resource market_info_resource server1 in
  mret (mk_globals logger port server2).

(** [cli_main()]: [asyncio.run(main())]. *)
Definition cli_main (g : globals R) : PyM proc unit := main g.

(** A start of the program: import the module, then call [cli_main()]. *)
Definition process : PyM proc unit :=
  g ← module_init; cli_main g.

(** ** The outcome of a start *)

(** The state after lines 51-53. *)
Definition after_init (p : proc) : proc :=
  set_log (Logging.basicConfig Logging.INFO (p_log p))
    (set_env (Env.load_dotenv (p_dotenv p) (p_env p)) p).

(** [os.getenv(key, default)] once [load_dotenv()] has run. *)
Definition configured (p : proc) (key default : string) : string :=
  Env.getenv (Env.load_dotenv (p_dotenv p) (p_env p)) key default.

Definition serve_at (m : mode) (port : Z) : event :=
  match m with
  | StandardStream => ServeStdio
  | StreamingHttp => ServeSse "0.0.0.0" port
  end.

Definition startup_line (p : proc) : list event :=
  Stderr <$> Logging.info (p_log (after_init p)) (Logging.getLogger "bybit-mcp")
    start_template [PyStr.lower (configured p "MCP_TRANSPORT" "stdio")].

Lemma init_tools (port : Z) :
  exists t : R, add_tools registration_script (FastMCP "bybit-mcp" "0.0.0.0" port) =
    inr (with_tools (FastMCP "bybit-mcp" "0.0.0.0" port) t) /\
    forall f, reg_lookup t (tool_name f) = Some f.
Proof.
  destruct (register_all_empty registration_script script_names_NoDup) as (t & Ht & Hl).
  exists t. rewrite add_tools_register_all. cbn [srv_tools FastMCP]. rewrite Ht.
  split; [done|]. intros f. by rewrite Hl, script_table_names.
Qed.

(** The final state of a start. *)
Lemma process_eq p :
  process p =
  match PyInt.py_int (configured p "MCP_PORT" "8000") with
  | inl e => (inl e, after_init p)
  | inr port =>
      match select_mode (configured p "MCP_TRANSPORT" "stdio") with
      | Some m => (inr (), output [serve_at m port] (output (startup_line p) (after_init p)))
      | None =>
          (inl (ValueError (unsupported_msg (PyStr.lower (configured p "MCP_TRANSPORT" "stdio")))),
           output (startup_line p) (after_init p))
      end
  end.
Proof.
  unfold process, module_init, cli_main. pym_unfold.
  cbn -[PyInt.py_int add_tools main Env.getenv Env.load_dotenv Logging.basicConfig
        add_resource registration_script].
  fold (after_init p). fold (configured p "MCP_PORT" "8000").
  destruct (PyInt.py_int (configured p "MCP_PORT" "8000")) as [e|port]; [done|].
  destruct (init_tools port) as (t & -> & _).
  rewrite main_eq. cbn [p_env after_init set_log set_env].
  fold (configured p "MCP_TRANSPORT" "stdio").
  destruct (select_mode (configured p "MCP_TRANSPORT" "stdio")) as [[]|]; done.
Qed.

(** C1: a start of the program, for every environment and
    [.env] file: if [int()] rejects the configured [MCP_PORT] the import
    raises and nothing is written; otherwise [main()] writes the startup
    line and then either serves in the mode [MCP_TRANSPORT] selects (SSE
    on [0.0.0.0] and the configured port) or raises [ValueError] for an
    unsupported value. *)
Theorem process_spec p :
  match PyInt.py_int (configured p "MCP_PORT" "8000") with
  | inl e => fst (process p) = inl e /\ p_out (snd (process p)) = p_out p
  | inr port =>
      match select_mode (configured p "MCP_TRANSPORT" "stdio") with
      | Some m => fst (process p) = inr () /\
          p_out (snd (process p)) = p_out p ++ startup_line p ++ [serve_at m port]
      | None =>
          fst (process p) = inl (ValueError (unsupported_msg (PyStr.lower (configured p "MCP_TRANSPORT" "stdio")))) /\
          p_out (snd (process p)) = p_out p ++ startup_line p
      end
  end.
Proof.
  rewrite process_eq. destruct (PyInt.py_int _) as [e|port]; [done|].
  destruct (select_mode _); split; try done; simpl; by rewrite ?app_assoc.
Qed.

(** The startup line [main()] writes to stderr. *)
Lemma startup_line_text p :
  p_log p = Logging.initial ->
  startup_line p =
    [Stderr ("INFO:bybit-mcp:Starting Bybit MCP Server in "
             +:+ PyStr.lower (configured p "MCP_TRANSPORT" "stdio") +:+ " mode")].
Proof.
  intros Hl. unfold startup_line, after_init. cbn [p_log set_log]. rewrite Hl.
  rewrite (Logging.info_configured _ _ _
    ("Starting Bybit MCP Server in " +:+ PyStr.lower (configured p "MCP_TRANSPORT" "stdio") +:+ " mode")).
  - reflexivity.
  - change start_template with ("Starting Bybit MCP Server in " +:+ "%s" +:+ " mode").
    by apply Logging.percent_format_one.
Qed.

Lemma output_app evs1 evs2 q : p_out (output evs2 (output evs1 q)) = p_out q ++ evs1 ++ evs2.
Proof. unfold output. simpl. by rewrite app_assoc. Qed.

Lemma after_init_out p : p_out (after_init p) = p_out p.
Proof. reflexivity. Qed.

Lemma configured_env p k d v : p_env p !! k = Some v -> configured p k d = v.
Proof.
  intros Hk. unfold configured, Env.getenv, Env.load_dotenv.
  rewrite Env.set_as_environment_variables_union, lookup_union, Hk.
  by destruct (omap id (Env.dotenv_dict (p_dotenv p)) !! k).
Qed.

Lemma configured_unset p k d :
  p_env p !! k = None -> Env.dotenv_last k (p_dotenv p) = None -> configured p k d = d.
Proof.
  intros H1 H2. unfold configured, Env.getenv, Env.load_dotenv.
  by rewrite Env.set_as_environment_variables_union, lookup_union, lookup_omap,
    Env.dotenv_dict_lookup, H1, H2.
Qed.

(** C14: with [MCP_TRANSPORT] set neither in the
    environment nor in [.env], and a port [int()] accepts, the server logs
    [INFO:bybit-mcp:Starting Bybit MCP Server in stdio mode] and serves on
    the standard streams. *)
Theorem startup_default_stdio p port :
  p_log p = Logging.initial ->
  p_env p !! "MCP_TRANSPORT" = None -> Env.dotenv_last "MCP_TRANSPORT" (p_dotenv p) = None ->
  PyInt.py_int (configured p "MCP_PORT" "8000") = inr port ->
  exists p', process p = (inr (), p') /\
    p_out p' = p_out p ++ [Stderr "INFO:bybit-mcp:Starting Bybit MCP Server in stdio mode"; ServeStdio].
Proof.
  intros Hl He Hd Hp. rewrite process_eq, Hp, (configured_unset p _ _ He Hd).
  eexists. split; [reflexivity|]. rewrite output_app, startup_line_text by done.
  by rewrite (configured_unset p _ _ He Hd).
Qed.

(** C15: with [MCP_TRANSPORT=sse] and [MCP_PORT=9001] in the
    environment the server logs the SSE startup line and binds port 9001
    on all interfaces, whatever the [.env] file says. *)
Theorem startup_sse_9001 p :
  p_log p = Logging.initial ->
  p_env p !! "MCP_TRANSPORT" = Some "sse" -> p_env p !! "MCP_PORT" = Some "9001" ->
  exists p', process p = (inr (), p') /\
    p_out p' = p_out p ++ [Stderr "INFO:bybit-mcp:Starting Bybit MCP Server in sse mode";
                           ServeSse "0.0.0.0" 9001].
Proof.
  intros Hl Ht Hp. rewrite process_eq, (configured_env p _ _ _ Hp), (configured_env p _ _ _ Ht).
  eexists. split; [reflexivity|]. rewrite output_app, startup_line_text by done.
  by rewrite (configured_env p _ _ _ Ht).
Qed.

(** C7: a [MCP_PORT] that [int()] rejects makes the import
    raise, before [main()] runs: nothing is logged or served, whatever
    [MCP_TRANSPORT] is, the standard-stream mode included. *)
Theorem startup_bad_port p e :
  PyInt.py_int (configured p "MCP_PORT" "8000") = inl e ->
  process p = (inl e, after_init p) /\ p_out (after_init p) = p_out p.
Proof. intros Hp. by rewrite process_eq, Hp. Qed.

(** C24: an [MCP_PORT] that is set but empty or only
    whitespace is not replaced by the default ["8000"]: [int()] rejects it
    and the import raises, nothing logged or served, whatever the
    transport. *)
Theorem startup_blank_port p v :
  p_env p !! "MCP_PORT" = Some v -> PyInt.all_space v = true ->
  process p = (inl (ValueError ("invalid literal for int() with base 10: " +:+ PyStr.repr v)), after_init p) /\
  p_out (after_init p) = p_out p.
Proof.
  intros Hv Hs. rewrite process_eq, (configured_env p _ _ _ Hv), (PyInt.py_int_blank v Hs). done.
Qed.

(** C25: an unsupported [MCP_TRANSPORT] does not fail
    before anything happens: [main()] first logs that the server is
    starting in that (lowercased) mode, then raises the [ValueError]. *)
Theorem startup_unsupported_logs_first p port :
  p_log p = Logging.initial ->
  PyInt.py_int (configured p "MCP_PORT" "8000") = inr port ->
  select_mode (configured p "MCP_TRANSPORT" "stdio") = None ->
  fst (process p) =
    inl (ValueError (unsupported_msg (PyStr.lower (configured p "MCP_TRANSPORT" "stdio")))) /\
  p_out (snd (process p)) =
    p_out p ++ [Stderr ("INFO:bybit-mcp:Starting Bybit MCP Server in "
                        +:+ PyStr.lower (configured p "MCP_TRANSPORT" "stdio") +:+ " mode")].
Proof.
  intros Hl Hp Hs. rewrite process_eq, Hp, Hs. split; [done|].
  cbn [snd]. unfold output. cbn [p_out]. by rewrite startup_line_text.
Qed.

(** ** The startup state machine *)

Inductive phase :=
  | Unstarted
  | Running (m : mode)
  | Terminated (r : py_exc + unit).

(** A start leaves [Unstarted] as [process] says: into [Running m] when it
    returned having begun to serve in [m], into [Terminated] when it
    raised.  A running server's loop ends by returning or by raising
    (stream closed, bind or transport error, signal): that is the
    framework's, and either can happen. *)
Inductive step (p0 : proc) : phase -> phase -> Prop :=
  | step_start m port p' :
      process p0 = (inr (), p') -> last (p_out p') = Some (serve_at m port) ->
      step p0 Unstarted (Running m)
  | step_fail e p' :
      process p0 = (inl e, p') -> step p0 Unstarted (Terminated (inl e))
  | step_return m : step p0 (Running m) (Terminated (inr ()))
  | step_raise m e : step p0 (Running m) (Terminated (inl e)).

(** The configuration lets the server start in mode [m]. *)
Definition starts (p0 : proc) (m : mode) : Prop :=
  (exists port, PyInt.py_int (configured p0 "MCP_PORT" "8000") = inr port) /\
  select_mode (configured p0 "MCP_TRANSPORT" "stdio") = Some m.

Lemma last_output_serve ev q : last (p_out (output [ev] q)) = Some ev.
Proof. unfold output. cbn [p_out]. apply last_snoc. Qed.

Lemma serve_at_inj m1 m2 port1 port2 : serve_at m1 port1 = serve_at m2 port2 -> m1 = m2.
Proof. by destruct m1, m2. Qed.

Lemma process_returns p0 p' :
  process p0 = (inr (), p') ->
  exists m port, PyInt.py_int (configured p0 "MCP_PORT" "8000") = inr port /\
    select_mode (configured p0 "MCP_TRANSPORT" "stdio") = Some m /\
    last (p_out p') = Some (serve_at m port).
Proof.
  rewrite process_eq.
  destruct (PyInt.py_int _) as [e|port]; [done|].
  destruct (select_mode _) as [m|]; [|done]. intros [= <-].
  exists m, port. split_and!; [done|done|].
  apply last_output_serve.
Qed.

(** What a reachable phase says about the configuration. *)
Definition reach_inv (p0 : proc) (s : phase) : Prop :=
  match s with
  | Unstarted => True
  | Running m => starts p0 m
  | Terminated (inr _) => exists m, starts p0 m
  | Terminated (inl e) => (exists p', process p0 = (inl e, p')) \/ exists m, starts p0 m
  end.

Lemma reach_inv_step p0 s1 s2 : reach_inv p0 s1 -> step p0 s1 s2 -> reach_inv p0 s2.
Proof.
  intros Hi Hs. destruct Hs as [m port p' Hp Hl|e p' Hp|m|m e]; simpl in *.
  - destruct (process_returns p0 p' Hp) as (m' & port' & Hport & Hsel & Hl').
    rewrite Hl in Hl'. injection Hl' as Heq. apply serve_at_inj in Heq as ->.
    split; [by exists port'|done].
  - left. by exists p'.
  - by exists m.
  - right. by exists m.
Qed.

Lemma reach_inv_rtc p0 s : rtc (step p0) Unstarted s -> reach_inv p0 s.
Proof.
  revert s. apply (rtc_ind_r (reach_inv p0) Unstarted); [done|].
  intros s1 s2 _ Hs IH. by eapply reach_inv_step.
Qed.

(** C6: the server reaches [Running m] exactly when
    [MCP_PORT] parses and [MCP_TRANSPORT] selects [m]. *)
Theorem reach_running p0 m :
  rtc (step p0) Unstarted (Running m) <-> starts p0 m.
Proof.
  split; [apply (reach_inv_rtc p0 (Running m))|].
  intros [[port Hport] Hsel]. apply rtc_once.
  eapply (step_start p0 m port).
  - rewrite process_eq, Hport, Hsel. reflexivity.
  - apply last_output_serve.
Qed.

(** C5: with an unsupported [MCP_TRANSPORT] (and a
    valid port) the server never enters a running state: every phase it
    reaches is [Unstarted] or termination by the [ValueError] naming the
    value. *)
Theorem unsupported_never_runs p0 port s :
  PyInt.py_int (configured p0 "MCP_PORT" "8000") = inr port ->
  select_mode (configured p0 "MCP_TRANSPORT" "stdio") = None ->
  rtc (step p0) Unstarted s ->
  s = Unstarted \/
  s = Terminated (inl (ValueError (unsupported_msg (PyStr.lower (configured p0 "MCP_TRANSPORT" "stdio"))))).
Proof.
  intros Hp Hsel Hr. apply reach_inv_rtc in Hr.
  assert (forall m, ~ starts p0 m) as Hns by (intros m [_ Hm]; congruence).
  destruct s as [|m|[e|[]]]; simpl in Hr.
  - by left.
  - by destruct (Hns m).
  - right. destruct Hr as [[p' He]|[m Hm]]; [|by destruct (Hns m)].
    rewrite process_eq, Hp, Hsel in He. by injection He as <- _.
  - destruct Hr as [m Hm]. by destruct (Hns m).
Qed.

(** The configuration decides the phase a start leads to. *)
Lemma start_deterministic p0 s1 s2 : step p0 Unstarted s1 -> step p0 Unstarted s2 -> s1 = s2.
Proof.
  intros H1 H2. inversion H1 as [m1 port1 p1 Hp1 Hl1| e1 p1 Hp1| |]; subst;
    inversion H2 as [m2 port2 p2 Hp2 Hl2| e2 p2 Hp2| |]; subst; rewrite Hp1 in Hp2; try done.
  - injection Hp2 as <-. rewrite Hl1 in Hl2. injection Hl2 as Heq.
    by rewrite (serve_at_inj _ _ _ _ Heq).
  - by injection Hp2 as <- _.
Qed.

(** Termination is final. *)
Lemma terminated_final p0 r s : ~ step p0 (Terminated r) s.
Proof. by inversion 1. Qed.

(** C13: the port is never range-checked: in SSE mode any
    integer [int()] reads from [MCP_PORT] (negative, zero, above 65535) is
    the port the server is asked to bind. *)
Theorem startup_sse_any_port p z :
  p_env p !! "MCP_TRANSPORT" = Some "sse" ->
  p_env p !! "MCP_PORT" = Some (PyInt.str_of_Z z) ->
  (Z.abs z < 10 ^ Z.of_nat PyInt.max_str_digits)%Z ->
  exists p', process p = (inr (), p') /\ last (p_out p') = Some (ServeSse "0.0.0.0" z).
Proof.
  intros Ht Hp Hz. rewrite process_eq, (configured_env p _ _ _ Hp), (configured_env p _ _ _ Ht).
  rewrite (PyInt.py_int_of_parse _ z) by (by apply PyInt.parse_str_of_Z).
  eexists. split; [reflexivity|]. apply last_output_serve.
Qed.

(** C10: once the module is imported, its server dispatches
    every imported endpoint under its name and serves the text of
    [market_info()] at [bybit://market/info]. *)
Theorem init_serves_market_info p g p' :
  module_init p = (inr g, p') ->
  read_resource (g_server g) "bybit://market/info" = Some market_info /\
  forall f, reg_lookup (srv_tools (g_server g)) (tool_name f) = Some f.
Proof.
  unfold module_init. pym_unfold.
  cbn -[PyInt.py_int add_tools Env.getenv Env.load_dotenv Logging.basicConfig
        add_resource registration_script].
  destruct (PyInt.py_int _) as [e|port]; [done|].
  destruct (init_tools port) as (t & -> & Ht). intros [= <- _]. cbn [g_server].
  destruct (add_resource_settings market_info_resource (with_tools (FastMCP "bybit-mcp" "0.0.0.0" port) t))
    as (_ & _ & ->).
  split; [|done]. by apply (read_resource_added market_info_resource).
Qed.

(** C22: the server has exactly one resource: a read of
    [bybit://market/info] returns the text of [market_info()], a read of
    any other URI finds nothing. *)
Theorem init_single_resource p g p' uri :
  module_init p = (inr g, p') ->
  read_resource (g_server g) uri =
    if bool_decide (uri = "bybit://market/info") then Some market_info else None.
Proof.
  unfold module_init. pym_unfold.
  cbn -[PyInt.py_int add_tools Env.getenv Env.load_dotenv Logging.basicConfig
        add_resource registration_script].
  destruct (PyInt.py_int _) as [e|port]; [done|].
  destruct (init_tools port) as (t & -> & _). intros [= <- _].
  by apply (read_resource_only market_info_resource).
Qed.

(** ** Progress of the startup steps *)

(** A start never gets stuck: [process] either raises or returns having
    begun to serve. *)
Lemma start_progress p0 : exists s, step p0 Unstarted s.
Proof.
  destruct (process p0) as [[e|[]] p'] eqn:E.
  - exists (Terminated (inl e)). by eapply step_fail.
  - destruct (process_returns p0 p' E) as (m & port & _ & _ & Hl).
    exists (Running m). by eapply step_start.
Qed.

(** C18: no phase but termination is stuck: a start always
    steps (to running or to the exception), a running server can always
    stop, and a terminated one never moves: a run that cannot be
    continued ends in [Terminated]. *)
Theorem stuck_iff_terminated p0 s : (forall s', ~ step p0 s s') <-> exists r, s = Terminated r.
Proof.
  split; [|intros [r ->] s' Hs; by inversion Hs].
  intros Hnf. destruct s as [|m|r]; [|by destruct (Hnf _ (step_return p0 m))|by exists r].
  destruct (start_progress p0) as [s' Hs]. by destruct (Hnf s').
Qed.

End Entry.

(** ** Concrete starts *)

Definition start_env (env : Env.environ) : proc := mk_proc env [] Logging.initial [].

Lemma startup_default_stdio_witness :
  p_log (start_env ∅) = Logging.initial /\
  p_env (start_env ∅) !! "MCP_TRANSPORT" = None /\
  Env.dotenv_last "MCP_TRANSPORT" (p_dotenv (start_env ∅)) = None /\
  PyInt.py_int (configured (start_env ∅) "MCP_PORT" "8000") = inr 8000%Z /\
  exists p', process (R := gmap string endpoint) (start_env ∅) = (inr (), p') /\
    p_out p' = [Stderr "INFO:bybit-mcp:Starting Bybit MCP Server in stdio mode"; ServeStdio].
Proof.
  split_and!; [reflexivity|reflexivity|reflexivity|vm_compute; reflexivity|].
  apply (startup_default_stdio (start_env ∅) 8000%Z); [reflexivity|reflexivity|reflexivity|].
  vm_compute. reflexivity.
Defined.

Definition sse_env : Env.environ := <["MCP_TRANSPORT" := "sse"]> (<["MCP_PORT" := "9001"]> ∅).

Lemma startup_sse_9001_witness :
  p_log (start_env sse_env) = Logging.initial /\
  p_env (start_env sse_env) !! "MCP_TRANSPORT" = Some "sse" /\
  p_env (start_env sse_env) !! "MCP_PORT" = Some "9001" /\
  exists p', process (R := gmap string endpoint) (start_env sse_env) = (inr (), p') /\
    p_out p' = [Stderr "INFO:bybit-mcp:Starting Bybit MCP Server in sse mode"; ServeSse "0.0.0.0" 9001].
Proof.
  split_and!; [reflexivity|vm_compute; reflexivity|vm_compute; reflexivity|].
  apply (startup_sse_9001 (start_env sse_env)); [reflexivity|vm_compute; reflexivity|vm_compute; reflexivity].
Defined.

Definition bad_port_env : Env.environ := <["MCP_TRANSPORT" := "stdio"]> (<["MCP_PORT" := "80 80"]> ∅).

Lemma startup_bad_port_witness :
  PyInt.py_int (configured (start_env bad_port_env) "MCP_PORT" "8000") =
    inl (ValueError "invalid literal for int() with base 10: '80 80'") /\
  process (R := gmap string endpoint) (start_env bad_port_env) =
    (inl (ValueError "invalid literal for int() with base 10: '80 80'"), after_init (start_env bad_port_env)) /\
  p_out (after_init (start_env bad_port_env)) = [].
Proof.
  assert (PyInt.py_int (configured (start_env bad_port_env) "MCP_PORT" "8000") =
    inl (ValueError "invalid literal for int() with base 10: '80 80'")) as Hp by (vm_compute; reflexivity).
  split; [exact Hp|]. apply (startup_bad_port (R := gmap string endpoint) _ _ Hp).
Defined.

Definition foo_env : Env.environ := <["MCP_TRANSPORT" := "foo"]> ∅.

Lemma unsupported_never_runs_witness :
  PyInt.py_int (configured (start_env foo_env) "MCP_PORT" "8000") = inr 8000%Z /\
  select_mode (configured (start_env foo_env) "MCP_TRANSPORT" "stdio") = None /\
  rtc (step (R := gmap string endpoint) (start_env foo_env)) Unstarted
    (Terminated (inl (ValueError "Unsupported MCP_TRANSPORT mode: foo"))) /\
  (Terminated (inl (ValueError "Unsupported MCP_TRANSPORT mode: foo")) = Unstarted \/
   Terminated (inl (ValueError "Unsupported MCP_TRANSPORT mode: foo")) =
   Terminated (inl (ValueError (unsupported_msg (PyStr.lower (configured (start_env foo_env) "MCP_TRANSPORT" "stdio")))))).
Proof.
  assert (PyInt.py_int (configured (start_env foo_env) "MCP_PORT" "8000") = inr 8000%Z) as Hp
    by (vm_compute; reflexivity).
  assert (select_mode (configured (start_env foo_env) "MCP_TRANSPORT" "stdio") = None) as Hs
    by (vm_compute; reflexivity).
  assert (rtc (step (R := gmap string endpoint) (start_env foo_env)) Unstarted
    (Terminated (inl (ValueError "Unsupported MCP_TRANSPORT mode: foo")))) as Hr.
  { apply rtc_once. eapply step_fail. rewrite process_eq, Hp, Hs. vm_compute. reflexivity. }
  split_and!; [exact Hp|exact Hs|exact Hr|]. exact (unsupported_never_runs _ _ _ Hp Hs Hr).
Defined.

Lemma startup_sse_any_port_witness :
  p_env (start_env (<["MCP_TRANSPORT" := "sse"]> (<["MCP_PORT" := PyInt.str_of_Z 70000]> ∅))) !! "MCP_TRANSPORT" = Some "sse" /\
  p_env (start_env (<["MCP_TRANSPORT" := "sse"]> (<["MCP_PORT" := PyInt.str_of_Z 70000]> ∅))) !! "MCP_PORT" = Some (PyInt.str_of_Z 70000) /\
  (Z.abs 70000 < 10 ^ Z.of_nat PyInt.max_str_digits)%Z /\
  exists p', process (R := gmap string endpoint)
    (start_env (<["MCP_TRANSPORT" := "sse"]> (<["MCP_PORT" := PyInt.str_of_Z 70000]> ∅))) = (inr (), p') /\
    last (p_out p') = Some (ServeSse "0.0.0.0" 70000).
Proof.
  assert (p_env (start_env (<["MCP_TRANSPORT" := "sse"]> (<["MCP_PORT" := PyInt.str_of_Z 70000]> ∅))) !! "MCP_TRANSPORT"
    = Some "sse") as Ht by (vm_compute; reflexivity).
  assert (p_env (start_env (<["MCP_TRANSPORT" := "sse"]> (<["MCP_PORT" := PyInt.str_of_Z 70000]> ∅))) !! "MCP_PORT"
    = Some (PyInt.str_of_Z 70000)) as Hp by (vm_compute; reflexivity).
  assert ((Z.abs 70000 < 10 ^ Z.of_nat PyInt.max_str_digits)%Z) as Hz by (vm_compute; reflexivity).
  split_and!; [exact Ht|exact Hp|exact Hz|]. exact (startup_sse_any_port _ _ Ht Hp Hz).
Defined.

Lemma init_serves_market_info_witness :
  exists g p', module_init (R := gmap string endpoint) (start_env ∅) = (inr g, p') /\
    read_resource (g_server g) "bybit://market/info" = Some market_info /\
    forall f, reg_lookup (srv_tools (g_server g)) (tool_name f) = Some f.
Proof.
  destruct (module_init (R := gmap string endpoint) (start_env ∅)) as [[e|g] p'] eqn:E.
  - vm_compute in E. discriminate.
  - exists g, p'. split; [done|]. exact (init_serves_market_info _ _ _ E).
Defined.

Lemma start_deterministic_witness :
  step (R := gmap string endpoint) (start_env ∅) Unstarted (Running StandardStream) /\
  Running StandardStream = Running StandardStream.
Proof.
  assert (step (R := gmap string endpoint) (start_env ∅) Unstarted (Running StandardStream)) as Hs.
  { eapply (step_start _ StandardStream 8000%Z).
    - rewrite process_eq. vm_compute. reflexivity.
    - reflexivity. }
  split; [exact Hs|]. exact (start_deterministic _ _ _ Hs Hs).
Defined.

Lemma process_spec_witness :
  ToolRegistryLaws (gmap string endpoint) /\
  fst (process (R := gmap string endpoint) (start_env ∅)) = inr () /\
  p_out (snd (process (R := gmap string endpoint) (start_env ∅))) =
    p_out (start_env ∅) ++ startup_line (start_env ∅) ++ [serve_at StandardStream 8000].
Proof.
  split; [exact SpecRegistry_laws|].
  pose proof (process_spec (R := gmap string endpoint) (start_env ∅)) as Hs.
  vm_compute in Hs. vm_compute. exact Hs.
Defined.

Lemma reach_running_witness :
  starts (start_env ∅) StandardStream /\
  rtc (step (R := gmap string endpoint) (start_env ∅)) Unstarted (Running StandardStream).
Proof.
  assert (starts (start_env ∅) StandardStream) as Hs.
  { split; [exists 8000%Z|]; vm_compute; reflexivity. }
  split; [exact Hs|]. exact (proj2 (reach_running _ _) Hs).
Defined.

Lemma init_single_resource_witness :
  exists g p', module_init (R := gmap string endpoint) (start_env ∅) = (inr g, p') /\
    read_resource (g_server g) "bybit://market/tools" = None.
Proof.
  destruct (module_init (R := gmap string endpoint) (start_env ∅)) as [[e|g] p'] eqn:E.
  - vm_compute in E. discriminate.
  - exists g, p'. split; [done|]. exact (init_single_resource _ _ _ "bybit://market/tools" E).
Defined.

Lemma stuck_iff_terminated_witness :
  (exists r, Terminated (inl (ValueError "Unsupported MCP_TRANSPORT mode: foo")) = Terminated r) /\
  forall s', ~ step (R := gmap string endpoint) (start_env foo_env)
    (Terminated (inl (ValueError "Unsupported MCP_TRANSPORT mode: foo"))) s'.
Proof.
  assert (exists r, Terminated (inl (ValueError "Unsupported MCP_TRANSPORT mode: foo")) = Terminated r)
    as Ht by (eexists; reflexivity).
  split; [exact Ht|]. exact (proj2 (stuck_iff_terminated _ _) Ht).
Defined.

Definition blank_port_env : Env.environ := <["MCP_PORT" := EmptyString]> ∅.

Lemma startup_blank_port_witness :
  p_env (start_env blank_port_env) !! "MCP_PORT" = Some EmptyString /\
  PyInt.all_space EmptyString = true /\
  process (R := gmap string endpoint) (start_env blank_port_env) =
    (inl (ValueError ("invalid literal for int() with base 10: " +:+ PyStr.repr EmptyString)),
     after_init (start_env blank_port_env)) /\
  p_out (after_init (start_env blank_port_env)) = p_out (start_env blank_port_env).
Proof.
  assert (p_env (start_env blank_port_env) !! "MCP_PORT" = Some EmptyString) as Hv
    by (vm_compute; reflexivity).
  split_and!; [exact Hv|reflexivity|..];
    apply (startup_blank_port (R := gmap string endpoint) _ _ Hv); reflexivity.
Defined.

Lemma startup_unsupported_logs_first_witness :
  p_log (start_env foo_env) = Logging.initial /\
  PyInt.py_int (configured (start_env foo_env) "MCP_PORT" "8000") = inr 8000%Z /\
  select_mode (configured (start_env foo_env) "MCP_TRANSPORT" "stdio") = None /\
  fst (process (R := gmap string endpoint) (start_env foo_env)) =
    inl (ValueError (unsupported_msg (PyStr.lower (configured (start_env foo_env) "MCP_TRANSPORT" "stdio")))) /\
  p_out (snd (process (R := gmap string endpoint) (start_env foo_env))) =
    p_out (start_env foo_env) ++ [Stderr ("INFO:bybit-mcp:Starting Bybit MCP Server in "
      +:+ PyStr.lower (configured (start_env foo_env) "MCP_TRANSPORT" "stdio") +:+ " mode")].
Proof.
  assert (PyInt.py_int (configured (start_env foo_env) "MCP_PORT" "8000") = inr 8000%Z) as Hp
    by (vm_compute; reflexivity).
  assert (select_mode (configured (start_env foo_env) "MCP_TRANSPORT" "stdio") = None) as Hs
    by (vm_compute; reflexivity).
  split_and!; [reflexivity|exact Hp|exact Hs|..];
    apply (startup_unsupported_logs_first (R := gmap string endpoint) (start_env foo_env) _ eq_refl Hp Hs).
Defined.

End Entry.
